(** * Chapter 2 scripts: dataset export, train.py and inference.py

    A shallow embedding of the Python code of chapter 2
    (notebook [1_Using_SageMaker_Script_Mode.ipynb], which carries the
    dataset export cell and the listings of [1_sources/train.py] and
    [1_sources/inference.py]).

    Python values that the scripts handle are a small inductive type,
    exceptions are values of an error type, and every call into a
    third-party library is recorded in a trace, its outcome being given by a
    record of library behaviours ([runtime]) over which all statements
    quantify. *)

From Stdlib Require Import String Ascii List ZArith Bool Lia.
From Stdlib Require Import DecimalString.
From Stdlib Require Import Floats.PrimFloat.
From stdpp Require Import base option list gmap strings.
Import ListNotations.
Local Open Scope string_scope.
Local Open Scope list_scope.

(** A closed equation decided by evaluating both sides. *)
Ltac vm_refl :=
  match goal with |- ?a = ?b => vm_cast_no_check (@eq_refl _ b) end.

(** ** Python values and exceptions *)

Module Py.

(** The exception classes that the scripts and the libraries they call can
    raise. [OtherError cls] stands for any other class, by name. *)
Inductive exc_kind :=
| TypeError
| NotImplementedError
| KeyError
| IndexError
| ValueError
| AttributeError
| SystemExit
| OtherError (cls : string).

Record exn := Exn { exn_kind : exc_kind; exn_msg : string }.

Definition exc_name (k : exc_kind) : string :=
  match k with
  | TypeError => "TypeError"
  | NotImplementedError => "NotImplementedError"
  | KeyError => "KeyError"
  | IndexError => "IndexError"
  | ValueError => "ValueError"
  | AttributeError => "AttributeError"
  | SystemExit => "SystemExit"
  | OtherError cls => cls
  end.

(** Python objects: JSON-like data, the constant [NotImplemented], exception
    classes and exception instances. *)
#[warnings="-register-all"]
Inductive pyobj :=
| PyNone
| PyNotImplemented
| PyBool (b : bool)
| PyInt (z : Z)
| PyFloat (f : float)
| PyStr (s : string)
| PyList (xs : list pyobj)
| PyDict (kvs : list (string * pyobj))
| PyExcClass (k : exc_kind)
| PyExcInstance (e : exn).

#[global] Instance pyobj_inhabited : Inhabited pyobj := populate PyNone.

(** [type(o).__name__] *)
Definition type_name (o : pyobj) : string :=
  match o with
  | PyNone => "NoneType"
  | PyNotImplemented => "NotImplementedType"
  | PyBool _ => "bool"
  | PyInt _ => "int"
  | PyFloat _ => "float"
  | PyStr _ => "str"
  | PyList _ => "list"
  | PyDict _ => "dict"
  | PyExcClass _ => "type"
  | PyExcInstance e => exc_name (exn_kind e)
  end.

(** [needle in hay] on two [str]: substring test. *)
Fixpoint str_contains (needle hay : string) : bool :=
  if String.prefix needle hay then true
  else match hay with
       | EmptyString => false
       | String _ hay' => str_contains needle hay'
       end.

(** [str(z)] for an integer. *)
Definition str_of_int (z : Z) : string := NilZero.string_of_int (Z.to_int z).

(** [os.path.join(a, b)] on POSIX for two components. *)
Definition os_path_join (a b : string) : string :=
  if String.prefix "/" b then b
  else if String.eqb a "" then b
  else if String.eqb (String.substring (String.length a - 1) 1 a) "/" then a ++ b
  else a ++ "/" ++ b.

End Py.
Export Py.

(** ** Traces of library calls *)

Module Trace.

(** A [DistilBertConfig]: only the field that the scripts set is kept. *)
Record DistilBertConfig := { num_labels : Z }.

(** [DistilBertConfig()]: the library's default is two labels. *)
Definition DistilBertConfig_default : DistilBertConfig := {| num_labels := 2 |}.

(** [config.num_labels = n] *)
Definition set_num_labels (config : DistilBertConfig) (n : Z) : DistilBertConfig :=
  {| num_labels := n |}.

(** The tokenizer and model objects are named by the call that built them. *)
Inductive tokenizer := Tokenizer (name : string).

(** [TrainingArguments(...)] as the training script fills it. *)
Record TrainingArguments := {
  output_dir : string;
  num_train_epochs : pyobj;
  per_device_train_batch_size : pyobj;
  per_device_eval_batch_size : pyobj;
  warmup_steps : pyobj;
  weight_decay : pyobj;
  logging_steps : pyobj
}.

(** A pandas data frame: its columns by name, in file order. *)
Definition dataframe := list (string * list pyobj).

(** A [BatchEncoding]: for each key the list of per-sample values. *)
Definition encodings := list (string * list pyobj).

(** [class CustomDataset(torch.utils.data.Dataset)] of train.py. *)
Record CustomDataset := {
  ds_encodings : encodings;
  ds_labels : list pyobj
}.

Inductive model :=
| Pretrained (name_or_path : string) (config : DistilBertConfig)
| Trained (m : model) (args : TrainingArguments)
          (train_dataset eval_dataset : CustomDataset).

(** The keyword arguments of [transformers.pipeline(...)]; the pipeline
    object is named by them. *)
Record pipeline := {
  pl_model : model;
  pl_task : string;
  pl_tokenizer : tokenizer;
  pl_framework : string;
  pl_device : Z;
  pl_max_length : Z;
  pl_truncation : bool
}.

(** One entry per call that leaves the script. *)
Inductive call :=
| os_environ_getitem (key : string)
| os_getenv (key fallback : string)
| pd_read_csv (path : string)
| tokenizer_from_pretrained (name : string)
| tokenizer_call (tok : tokenizer) (texts : list pyobj)
| model_from_pretrained (name_or_path : string) (config : DistilBertConfig)
| training_arguments_init (args : TrainingArguments)
| trainer_init (m : model) (args : TrainingArguments)
               (train_dataset eval_dataset : CustomDataset)
| trainer_train (m : model) (args : TrainingArguments)
               (train_dataset eval_dataset : CustomDataset)
| model_save_pretrained (m : model) (path : string)
| torch_cuda_is_available
| transformers_pipeline (p : pipeline)
| json_loads (data : string)
| pipeline_call (p : pipeline) (input : pyobj)
| json_dumps (o : pyobj).

(** What the libraries answer. An [inl] is the exception the call raises. *)
Record runtime := {
  rt_read_csv : string -> exn + dataframe;
  rt_tokenizer_from_pretrained : string -> option exn;
  rt_tokenize : tokenizer -> list pyobj -> exn + encodings;
  rt_model_from_pretrained : string -> DistilBertConfig -> option exn;
  rt_trainer_train : model -> TrainingArguments -> CustomDataset -> CustomDataset -> option exn;
  rt_save_pretrained : model -> string -> option exn;
  rt_cuda_is_available : bool;
  rt_pipeline : pipeline -> option exn;
  rt_json_loads : string -> exn + pyobj;
  rt_pipeline_call : pipeline -> pyobj -> exn + pyobj;
  rt_json_dumps : pyobj -> exn + string;
  (** [float(s)] on a [str]; [None] is a [ValueError]. *)
  rt_float : string -> option float;
  rt_training_arguments : TrainingArguments -> option exn;
  rt_trainer : model -> TrainingArguments -> CustomDataset -> CustomDataset -> option exn
}.

(** A run: the calls made, in order, and either the exception that ended the
    run or its value. *)
Definition Run (A : Type) : Type := list call * (exn + A).

Definition ret {A} (a : A) : Run A := ([], inr a).

Definition raise {A} (e : exn) : Run A := ([], inl e).

Definition bind {A B} (m : Run A) (k : A -> Run B) : Run B :=
  match m with
  | (t, inl e) => (t, inl e)
  | (t, inr a) => let (t', r) := k a in (t ++ t', r)
  end.

(** A library call whose result is data. *)
Definition lib {A} (c : call) (answer : exn + A) : Run A := ([c], answer).

(** A library call that returns the object [a] unless it raises. *)
Definition lib_obj {A} (c : call) (failure : option exn) (a : A) : Run A :=
  ([c], match failure with Some e => inl e | None => inr a end).

Definition calls {A} (m : Run A) : list call := fst m.
Definition outcome {A} (m : Run A) : exn + A := snd m.

End Trace.
Export Trace.

#[global] Instance run_ret : MRet Run := @ret.
#[global] Instance run_bind : MBind Run := fun A B k m => bind m k.

(** ** The fragment of Python's evaluation that the scripts rely on *)

Module Semantics.

(** [callee(arg)]: calling an exception class builds an instance; anything
    else here is not callable. *)
Definition py_call (callee : pyobj) (arg : string) : Run pyobj :=
  match callee with
  | PyExcClass k => ret (PyExcInstance (Exn k arg))
  | o => raise (Exn TypeError ("'" ++ type_name o ++ "' object is not callable"))
  end.

(** [raise o] *)
Definition py_raise {A} (o : pyobj) : Run A :=
  match o with
  | PyExcInstance e => raise e
  | PyExcClass k => raise (Exn k "")
  | _ => raise (Exn TypeError "exceptions must derive from BaseException")
  end.

(** What [NotImplemented(...)] raises: the constant is not callable. *)
Definition not_callable : exn :=
  Exn TypeError "'NotImplementedType' object is not callable".

(** [os.environ[key]] *)
Definition environ_getitem (environ : gmap string string) (key : string) : Run string :=
  lib (os_environ_getitem key)
      (match environ !! key with
       | Some v => inr v
       | None => inl (Exn KeyError key)
       end).

(** [os.getenv(key, default)] *)
Definition getenv (environ : gmap string string) (key fallback : string) : Run string :=
  lib (os_getenv key fallback)
      (inr (match environ !! key with Some v => v | None => fallback end)).

End Semantics.
Export Semantics.

(** ** 1_sources/inference.py *)

Module Inference.

Definition MODEL_NAME : string := "distilbert-base-uncased".
Definition NUM_LABELS : Z := 6.
Definition MAX_LENGTH : Z := 512.

Definition model_fn (rt : runtime) (model_dir : string) : Run pipeline :=
  available ← lib torch_cuda_is_available (inr (rt_cuda_is_available rt));
  let device_id := if (available : bool) then 0%Z else (-1)%Z in
  tokenizer ← lib_obj (tokenizer_from_pretrained MODEL_NAME)
                       (rt_tokenizer_from_pretrained rt MODEL_NAME)
                       (Tokenizer MODEL_NAME);
  let config := DistilBertConfig_default in
  let config := set_num_labels config NUM_LABELS in
  model ← lib_obj (model_from_pretrained model_dir config)
                   (rt_model_from_pretrained rt model_dir config)
                   (Pretrained model_dir config);
  let p := {| pl_model := model;
              pl_task := "text-classification";
              pl_tokenizer := tokenizer;
              pl_framework := "pt";
              pl_device := device_id;
              pl_max_length := MAX_LENGTH;
              pl_truncation := true |} in
  inference_pipeline ← lib_obj (transformers_pipeline p) (rt_pipeline rt p) p;
  ret inference_pipeline.

Definition transform_fn (rt : runtime) (inference_pipeline : pipeline)
    (data content_type accept_type : string) : Run string :=
  deser_data ←
    (if str_contains "json" content_type
     then lib (json_loads data) (rt_json_loads rt data)
     else e ← py_call PyNotImplemented
                 "Only 'application/json' content type is supported.";
          py_raise e);
  predictions ← lib (pipeline_call inference_pipeline deser_data)
                     (rt_pipeline_call rt inference_pipeline deser_data);
  if str_contains "json" accept_type
  then lib (json_dumps predictions) (rt_json_dumps rt predictions)
  else e ← py_call PyNotImplemented
              "Only 'application/json' accept type is supported.";
       py_raise e.

End Inference.

(** ** The dataset export cell of the notebook *)

Module DatasetExport.

(** What [fetch_20newsgroups] returns: the texts and their category ids. *)
Record Bunch := { data : list string; target : list Z }.

(** A CSV file is kept as the sequence of records written to it; quoting
    and line breaks are the [csv] module's business. *)
Definition csv_record := list string.
Abbreviation filesystem := (gmap string (list csv_record)).

(** The cell runs against the local file system and may raise. *)
Definition IO (A : Type) : Type := filesystem -> filesystem * (exn + A).

Definition io_ret {A} (a : A) : IO A := fun fs => (fs, inr a).
Definition io_raise {A} (e : exn) : IO A := fun fs => (fs, inl e).
Definition io_bind {A B} (m : IO A) (k : A -> IO B) : IO B :=
  fun fs => match m fs with
            | (fs', inl e) => (fs', inl e)
            | (fs', inr a) => k a fs'
            end.

#[global] Instance io_mret : MRet IO := @io_ret.
#[global] Instance io_mbind : MBind IO := fun A B k m => io_bind m k.

(** [for x in xs: body(x)] *)
Fixpoint for_each {A} (xs : list A) (body : A -> IO unit) : IO unit :=
  match xs with
  | [] => mret tt
  | x :: xs' => body x ≫= fun _ => for_each xs' body
  end.

(** [open(file, 'w')]: the file is created, or emptied if it exists. *)
Definition open_w (file : string) : IO unit :=
  fun fs => (<[file := []]> fs, inr tt).

(** One record appended through the open file. *)
Definition write_record (file : string) (r : csv_record) : IO unit :=
  fun fs => (alter (fun rows => rows ++ [r]) file fs, inr tt).

(** A value handed to the writer, which writes [str(value)]. *)
Inductive cell := CellStr (s : string) | CellInt (z : Z).

Definition cell_str (c : cell) : string :=
  match c with CellStr s => s | CellInt z => str_of_int z end.

(** [csv.DictWriter(f, fieldnames)] *)
Record DictWriter := { dw_file : string; fieldnames : list string }.

Definition writeheader (w : DictWriter) : IO unit :=
  write_record (dw_file w) (fieldnames w).

Fixpoint rowdict_get (rowdict : list (string * cell)) (key : string) : string :=
  match rowdict with
  | [] => ""
  | (k, v) :: rest => if String.eqb k key then cell_str v else rowdict_get rest key
  end.

(** [w.writerow(rowdict)]: a key outside [fieldnames] is refused, the fields
    are written in the order of [fieldnames]. *)
Definition writerow (w : DictWriter) (rowdict : list (string * cell)) : IO unit :=
  if forallb (fun kv => existsb (String.eqb (fst kv)) (fieldnames w)) rowdict
  then write_record (dw_file w) (map (rowdict_get rowdict) (fieldnames w))
  else io_raise (Exn ValueError "dict contains fields not in fieldnames").

(** [xs[i]] on a Python list. *)
Definition list_getitem {A} (xs : list A) (i : nat) : IO A :=
  match xs !! i with
  | Some x => mret x
  | None => io_raise (Exn IndexError "list index out of range")
  end.

(** [a[i]] on a one-dimensional numpy array. *)
Definition ndarray_getitem (a : list Z) (i : nat) : IO Z :=
  match a !! i with
  | Some x => mret x
  | None =>
      io_raise (Exn IndexError
        ("index " ++ str_of_int (Z.of_nat i) ++ " is out of bounds for axis 0 with size "
         ++ str_of_int (Z.of_nat (length a))))
  end.

(** The cell. Both datasets are in scope when it runs. *)
Definition export_cell (train_dataset test_dataset : Bunch) : IO unit :=
  for_each ["train_dataset.csv"; "test_dataset.csv"] (fun file =>
    open_w file ≫= fun _ =>
    let w := {| dw_file := file; fieldnames := ["data"; "category_id"] |} in
    writeheader w ≫= fun _ =>
    for_each (seq 0 (length (data train_dataset))) (fun i =>
      d ← list_getitem (data train_dataset) i;
      c ← ndarray_getitem (target train_dataset) i;
      writerow w [("data", CellStr d); ("category_id", CellInt c)])).

(** The header line that [writeheader] writes in the cell. *)
Definition header : csv_record := ["data"; "category_id"].

(** The records of a file below its header line. *)
Definition data_rows (fs : filesystem) (file : string) : list csv_record :=
  match fs !! file with
  | Some (_ :: rows) => rows
  | _ => []
  end.

(** The rows a dataset should give: its text and the decimal form of its
    category id, sample by sample. *)
Definition expected_rows (d : Bunch) : list csv_record :=
  zip_with (fun text c => [text; str_of_int c]) (data d) (target d).

End DatasetExport.

(** ** [argparse], for the parsers that train.py builds

    Optional arguments that store one converted value ([nargs=None]) and the
    help option that every parser has; no positional argument. The
    definitions follow CPython's [argparse.py] (as of Python 3.11) function
    by function; argument strings are taken to be ASCII. *)

Module Argparse.

Definition chars (s : string) : list ascii := list_ascii_of_string s.

Definition is_digit (c : ascii) : bool :=
  let n := nat_of_ascii c in (48 <=? n)%nat && (n <=? 57)%nat.

(** The ASCII white space that [int] skips around a number. *)
Definition is_space (c : ascii) : bool :=
  let n := nat_of_ascii c in
  ((9 <=? n)%nat && (n <=? 13)%nat) || (n =? 32)%nat.

Fixpoint lstrip (l : list ascii) : list ascii :=
  match l with
  | c :: l' => if is_space c then lstrip l' else l
  | [] => []
  end.

Definition strip (l : list ascii) : list ascii := rev (lstrip (rev (lstrip l))).

(** Decimal digits with single underscores between them. *)
Fixpoint digits_value (acc : Z) (after_digit : bool) (l : list ascii) : option Z :=
  match l with
  | [] => if after_digit then Some acc else None
  | c :: l' =>
      if is_digit c
      then digits_value (10 * acc + (Z.of_nat (nat_of_ascii c) - 48)) true l'
      else if Ascii.eqb c "_"
           then (if after_digit then digits_value acc false l' else None)
           else None
  end.

(** [int(s)] on a [str]; [None] is a [ValueError]. *)
Definition py_int (s : string) : option Z :=
  match strip (chars s) with
  | "+"%char :: l => digits_value 0 false l
  | "-"%char :: l => Z.opp <$> digits_value 0 false l
  | l => digits_value 0 false l
  end.

Inductive arg_type := type_int | type_float.

Definition type_name_of (t : arg_type) : string :=
  match t with type_int => "int" | type_float => "float" end.

Inductive action :=
| HelpAction
| StoreAction (option_string dest : string) (type : arg_type) (default : pyobj).

Definition option_strings (a : action) : list string :=
  match a with
  | HelpAction => ["-h"; "--help"]
  | StoreAction o _ _ _ => [o]
  end.

(** A parser is the list of its actions, in the order they were added. *)
Definition parser := list action.

(** [argparse.ArgumentParser()] *)
Definition ArgumentParser : parser := [HelpAction].

Fixpoint lstrip_dashes (l : list ascii) : list ascii :=
  match l with
  | c :: l' => if Ascii.eqb c "-" then lstrip_dashes l' else l
  | [] => []
  end.

(** The attribute name of an option: ["--warmup-steps"] gives
    ["warmup_steps"]. *)
Definition dest_of (option_string : string) : string :=
  string_of_list_ascii
    (map (fun c => if Ascii.eqb c "-" then "_"%char else c)
         (lstrip_dashes (chars option_string))).

(** [parser.add_argument(name, type=type, default=default)] *)
Definition add_argument (p : parser) (name : string) (type : arg_type)
    (default : pyobj) : parser :=
  p ++ [StoreAction name (dest_of name) type default].

(** [parser._option_string_actions], in insertion order. *)
Definition option_string_actions (p : parser) : list (string * action) :=
  flat_map (fun a => map (fun o => (o, a)) (option_strings a)) p.

Fixpoint lookup_action (osa : list (string * action)) (s : string) : option action :=
  match osa with
  | [] => None
  | (o, a) :: rest => if String.eqb o s then Some a else lookup_action rest s
  end.

Abbreviation Namespace := (gmap string pyobj).

(** The namespace before any argument is read. *)
Fixpoint add_defaults (actions : list action) (ns : gmap string pyobj) : gmap string pyobj :=
  match actions with
  | [] => ns
  | HelpAction :: rest => add_defaults rest ns
  | StoreAction _ dest _ default :: rest =>
      add_defaults rest
        (match ns !! dest with Some _ => ns | None => <[dest := default]> ns end)
  end.

(** Why parsing stopped: the help text was printed (exit status 0) or the
    command line was refused (usage message, exit status 2). *)
Inductive refusal :=
| AmbiguousOption (arg : string) (matches : list string)
| ExpectedOneArgument (option_string : string)
| InvalidValue (option_string : string) (type : arg_type) (value : string)
| IgnoredExplicitArgument (option_string explicit_arg : string).

Inductive stop :=
| PrintHelp
| UsageError (r : refusal).

(** [sys.exit(status)] *)
Definition exn_of_stop (s : stop) : exn :=
  match s with
  | PrintHelp => Exn SystemExit "0"
  | UsageError _ => Exn SystemExit "2"
  end.

(** [s.split('=', 1)] when ['=' in s]. *)
Fixpoint split_eq (l : list ascii) : option (list ascii * list ascii) :=
  match l with
  | [] => None
  | c :: l' =>
      if Ascii.eqb c "="
      then Some ([], l')
      else match split_eq l' with
           | Some (before, after) => Some (c :: before, after)
           | None => None
           end
  end.

Definition split_eq_str (s : string) : option (string * string) :=
  match split_eq (chars s) with
  | Some (b, a) => Some (string_of_list_ascii b, string_of_list_ascii a)
  | None => None
  end.

(** An option tuple: the action found, if any, the option string and the
    argument glued to it, if any. *)
Inductive option_tuple :=
  OT (a : option action) (option_string : string) (explicit_arg : option string).

Definition second_is_dash (s : string) : bool :=
  match s with
  | String _ (String c _) => Ascii.eqb c "-"
  | _ => false
  end.

(** [parser._get_option_tuples(arg)], for an [arg] of two characters or more
    that starts with a dash. *)
Definition get_option_tuples (p : parser) (arg : string) : list option_tuple :=
  if second_is_dash arg
  then
    let '(option_prefix, explicit_arg) :=
      match split_eq_str arg with
      | Some (b, a) => (b, Some a)
      | None => (arg, None)
      end in
    flat_map (fun oa : string * action =>
                if String.prefix option_prefix (fst oa)
                then [OT (Some (snd oa)) (fst oa) explicit_arg]
                else [])
             (option_string_actions p)
  else
    let short_option_prefix := String.substring 0 2 arg in
    let short_explicit_arg := String.substring 2 (String.length arg - 2) arg in
    flat_map (fun oa : string * action =>
                if String.eqb (fst oa) short_option_prefix
                then [OT (Some (snd oa)) (fst oa) (Some short_explicit_arg)]
                else if String.prefix arg (fst oa)
                     then [OT (Some (snd oa)) (fst oa) None]
                     else [])
             (option_string_actions p).

Fixpoint all_digits (l : list ascii) : bool :=
  match l with
  | [] => true
  | c :: l' => is_digit c && all_digits l'
  end.

Fixpoint drop_digits (l : list ascii) : list ascii :=
  match l with
  | c :: l' => if is_digit c then drop_digits l' else l
  | [] => []
  end.

(** The parser's [_negative_number_matcher], [^-\d+$|^-\d*\.\d+$]: a
    trailing line feed is let through by [$]. *)
Definition negative_number_like (s : string) : bool :=
  match chars s with
  | "-"%char :: l =>
      let l := match rev l with
               | c :: r => if Ascii.eqb c (ascii_of_nat 10) then rev r else l
               | [] => l
               end in
      match l with
      | [] => false
      | _ :: _ =>
          all_digits l ||
          match drop_digits l with
          | "."%char :: ((_ :: _) as frac) => all_digits frac
          | _ => false
          end
      end
  | _ => false
  end.

(** What one argument string is taken for: an argument (['A'] in the
    pattern) or an option (['O']). *)
Inductive pat := PA | PDash | PO (t : option_tuple).

(** [parser._parse_optional(arg)]; [inr PA] is Python's [None]. *)
Definition parse_optional (p : parser) (arg : string) : refusal + pat :=
  if String.eqb arg "" then inr PA
  else if negb (String.prefix "-" arg) then inr PA
  else
    match lookup_action (option_string_actions p) arg with
    | Some a => inr (PO (OT (Some a) arg None))
    | None =>
        if (String.length arg =? 1)%nat then inr PA
        else
          let glued :=
            match split_eq_str arg with
            | Some (o, e) =>
                match lookup_action (option_string_actions p) o with
                | Some a => Some (OT (Some a) o (Some e))
                | None => None
                end
            | None => None
            end in
          match glued with
          | Some t => inr (PO t)
          | None =>
              match get_option_tuples p arg with
              | (_ :: _ :: _) as ts =>
                  inl (AmbiguousOption arg
                         (map (fun t => match t with OT _ o _ => o end) ts))
              | [t] => inr (PO t)
              | [] =>
                  if negative_number_like arg then inr PA
                  else if str_contains " " arg then inr PA
                  else inr (PO (OT None arg None))
              end
          end
    end.

(** The pattern of a command line: every string after the first ["--"] is an
    argument. *)
Fixpoint classify (p : parser) (args : list string) : refusal + list (string * pat) :=
  match args with
  | [] => inr []
  | a :: rest =>
      if String.eqb a "--"
      then inr ((a, PDash) :: map (fun s => (s, PA)) rest)
      else match parse_optional p a with
           | inl r => inl r
           | inr c =>
               match classify p rest with
               | inl r => inl r
               | inr l => inr ((a, c) :: l)
               end
           end
  end.

Fixpoint remove_first (x : string) (l : list string) : list string :=
  match l with
  | [] => []
  | y :: l' => if String.eqb x y then l' else y :: remove_first x l'
  end.

(** [parser._get_value(action, s)] for the two types of the script. *)
Definition get_value (float_of_str : string -> option float) (t : arg_type)
    (s : string) : option pyobj :=
  match t with
  | type_int => PyInt <$> py_int s
  | type_float => PyFloat <$> float_of_str s
  end.

Fixpoint get_value_list (float_of_str : string -> option float) (o : string)
    (t : arg_type) (l : list string) : refusal + list pyobj :=
  match l with
  | [] => inr []
  | s :: l' =>
      match get_value float_of_str t s with
      | None => inl (InvalidValue o t s)
      | Some v =>
          match get_value_list float_of_str o t l' with
          | inl r => inl r
          | inr vs => inr (v :: vs)
          end
      end
  end.

(** [parser._get_values(action, arg_strings)] for [nargs=None]: the first
    ["--"] is dropped, one string left gives one value, anything else a
    list. *)
Definition get_values (float_of_str : string -> option float) (o : string)
    (t : arg_type) (arg_strings : list string) : refusal + pyobj :=
  match remove_first "--" arg_strings with
  | [s] =>
      match get_value float_of_str t s with
      | Some v => inr v
      | None => inl (InvalidValue o t s)
      end
  | l =>
      match get_value_list float_of_str o t l with
      | inl r => inl r
      | inr vs => inr (PyList vs)
      end
  end.

(** The tail of a single-dash option that takes no argument is read as
    further single-dash options: after [-h] only [h] can follow. *)
Fixpoint help_chain (explicit_arg : list ascii) : stop :=
  match explicit_arg with
  | [] => PrintHelp
  | c :: rest =>
      if Ascii.eqb c "h" then help_chain rest
      else UsageError (IgnoredExplicitArgument "-h" (string_of_list_ascii explicit_arg))
  end.

(** The loop of [_parse_known_args] that consumes options and their
    arguments. An option that stores a value takes the next string if it is
    an argument (the pattern [(A)]); with no positional declared every other
    string is an extra. *)
Fixpoint consume (float_of_str : string -> option float) (ns : gmap string pyobj)
    (extras : list string) (l : list (string * pat))
  : stop + (gmap string pyobj * list string) :=
  match l with
  | [] => inr (ns, extras)
  | (s, PA) :: r => consume float_of_str ns (extras ++ [s]) r
  | (s, PDash) :: r => consume float_of_str ns (extras ++ [s]) r
  | (s, PO (OT None _ _)) :: r => consume float_of_str ns (extras ++ [s]) r
  | (s, PO (OT (Some HelpAction) o None)) :: r => inl PrintHelp
  | (s, PO (OT (Some HelpAction) o (Some e))) :: r =>
      if second_is_dash o
      then inl (UsageError (IgnoredExplicitArgument o e))
      else match chars e with
           | [] => inl (UsageError (IgnoredExplicitArgument o e))
           | cs => inl (help_chain cs)
           end
  | (s, PO (OT (Some (StoreAction _ dest t _)) o (Some e))) :: r =>
      match get_values float_of_str o t [e] with
      | inl rf => inl (UsageError rf)
      | inr v => consume float_of_str (<[dest := v]> ns) extras r
      end
  | (s, PO (OT (Some (StoreAction _ dest t _)) o None)) :: r =>
      match r with
      | (v, PA) :: r' =>
          match get_values float_of_str o t [v] with
          | inl rf => inl (UsageError rf)
          | inr x => consume float_of_str (<[dest := x]> ns) extras r'
          end
      | _ => inl (UsageError (ExpectedOneArgument o))
      end
  end.

(** [parser.parse_known_args(args)] *)
Definition parse_known_args (float_of_str : string -> option float) (p : parser)
    (args : list string) : stop + (gmap string pyobj * list string) :=
  let ns := add_defaults p ∅ in
  match classify p args with
  | inl r => inl (UsageError r)
  | inr l => consume float_of_str ns [] l
  end.

(** The epochs, the weight decay and the logging steps of a parse, with the
    extras. *)
Definition glance (r : stop + (gmap string pyobj * list string))
  : stop + (option pyobj * option pyobj * option pyobj * list string) :=
  match r with
  | inl s => inl s
  | inr (ns, extras) =>
      inr (ns !! "epochs", ns !! "weight_decay", ns !! "logging_steps", extras)
  end.

(** *** Command lines by their parts

    A command line read as a sequence of parts: a flag followed by its value,
    a flag with its value glued by [=], or an argument that is no flag of
    the parser. [part_step] says what a part does to the namespace and to
    the extras when it is well formed for the parser: the flag is one of the
    parser's storing options (by its name or by an unambiguous prefix of
    it), and its value is an argument that the type of the option
    converts. *)
Inductive part :=
| Flag (option_string value : string)
| Glued (arg : string)
| Other (arg : string).

Definition part_strings (x : part) : list string :=
  match x with
  | Flag o v => [o; v]
  | Glued a => [a]
  | Other a => [a]
  end.

Definition render (parts : list part) : list string := flat_map part_strings parts.

Definition part_step (float_of_str : string -> option float) (p : parser)
    (x : part) (ns : gmap string pyobj) : option (gmap string pyobj * list string) :=
  match x with
  | Flag o v =>
      if String.eqb o "--" || String.eqb v "--" then None
      else match parse_optional p o, parse_optional p v with
           | inr (PO (OT (Some (StoreAction _ dest t _)) _ None)), inr PA =>
               match get_value float_of_str t v with
               | Some x => Some (<[dest := x]> ns, [])
               | None => None
               end
           | _, _ => None
           end
  | Glued a =>
      if String.eqb a "--" then None
      else match parse_optional p a with
           | inr (PO (OT (Some (StoreAction _ dest t _)) _ (Some e))) =>
               if String.eqb e "--" then None
               else match get_value float_of_str t e with
                    | Some x => Some (<[dest := x]> ns, [])
                    | None => None
                    end
           | _ => None
           end
  | Other a =>
      if String.eqb a "--" then None
      else match parse_optional p a with
           | inr PA => Some (ns, [a])
           | inr (PO (OT None _ _)) => Some (ns, [a])
           | _ => None
           end
  end.

Fixpoint parts_run (float_of_str : string -> option float) (p : parser)
    (parts : list part) (ns : gmap string pyobj) (extras : list string)
  : option (gmap string pyobj * list string) :=
  match parts with
  | [] => Some (ns, extras)
  | x :: rest =>
      match part_step float_of_str p x ns with
      | Some (ns', more) => parts_run float_of_str p rest ns' (extras ++ more)
      | None => None
      end
  end.

End Argparse.

(** ** 1_sources/train.py *)

Module Train.
Import Argparse.

Definition MODEL_NAME : string := "distilbert-base-uncased".
Definition NUM_LABELS : Z := 6.

(** *** [class CustomDataset]

    The record is declared with the traces above, as the trainer's calls
    carry it; here are its methods. *)

(** [torch.tensor(v)]. Which values the library converts is the library's
    business: [refuses v] is the exception that it raises for [v], if any
    (a [str], an integer beyond 64 bits, ...). A tensor that is built is
    kept as the data it holds. *)
Definition torch_tensor (refuses : pyobj -> option exn) (v : pyobj) : exn + pyobj :=
  match refuses v with
  | Some e => inl e
  | None => inr v
  end.

(** [d[key] = v] on a dict kept in insertion order. *)
Fixpoint dict_setitem (d : list (string * pyobj)) (key : string) (v : pyobj)
  : list (string * pyobj) :=
  match d with
  | [] => [(key, v)]
  | (k, w) :: rest =>
      if String.eqb k key then (k, v) :: rest else (k, w) :: dict_setitem rest key v
  end.

(** [{key: torch.tensor(val[idx]) for key, val in encodings.items()}]: key
    by key, the value of the sample is looked up and then converted. *)
Fixpoint encodings_at (refuses : pyobj -> option exn) (enc : encodings) (idx : nat)
  : exn + list (string * pyobj) :=
  match enc with
  | [] => inr []
  | (key, val) :: rest =>
      match val !! idx with
      | None => inl (Exn IndexError "list index out of range")
      | Some v =>
          match torch_tensor refuses v with
          | inl e => inl e
          | inr t =>
              match encodings_at refuses rest idx with
              | inl e => inl e
              | inr item => inr ((key, t) :: item)
              end
          end
      end
  end.

(** [CustomDataset.__getitem__(self, idx)]; the labels are a pandas column,
    which answers a missing position with a [KeyError]. *)
Definition CustomDataset_getitem (refuses : pyobj -> option exn) (self : CustomDataset)
    (idx : nat) : exn + list (string * pyobj) :=
  match encodings_at refuses (ds_encodings self) idx with
  | inl e => inl e
  | inr item =>
      match ds_labels self !! idx with
      | None => inl (Exn KeyError (str_of_int (Z.of_nat idx)))
      | Some l =>
          match torch_tensor refuses l with
          | inl e => inl e
          | inr t => inr (dict_setitem item "label" t)
          end
      end
  end.

(** [CustomDataset.__len__(self)] *)
Definition CustomDataset_len (self : CustomDataset) : nat := length (ds_labels self).

(** [df[column]] *)
Fixpoint df_getitem (df : dataframe) (column : string) : Run (list pyobj) :=
  match df with
  | [] => raise (Exn KeyError column)
  | (name, values) :: rest =>
      if String.eqb name column then ret values else df_getitem rest column
  end.

(** [args.name] *)
Definition getattr (args : gmap string pyobj) (name : string) : Run pyobj :=
  match args !! name with
  | Some v => ret v
  | None => raise (Exn AttributeError name)
  end.

Definition _get_tokenized_data (rt : runtime) (environ : gmap string string)
  : Run (CustomDataset * CustomDataset) :=
  train_dir ← environ_getitem environ "SM_CHANNEL_TRAIN";
  let train_path := os_path_join train_dir "train_dataset.csv" in
  train_dataset ← lib (pd_read_csv train_path) (rt_read_csv rt train_path);
  test_dir ← environ_getitem environ "SM_CHANNEL_TEST";
  let test_path := os_path_join test_dir "test_dataset.csv" in
  test_dataset ← lib (pd_read_csv test_path) (rt_read_csv rt test_path);
  tokenizer ← lib_obj (tokenizer_from_pretrained MODEL_NAME)
                       (rt_tokenizer_from_pretrained rt MODEL_NAME)
                       (Tokenizer MODEL_NAME);
  train_texts ← df_getitem train_dataset "data";
  train_encodings ← lib (tokenizer_call tokenizer train_texts)
                         (rt_tokenize rt tokenizer train_texts);
  test_texts ← df_getitem test_dataset "data";
  test_encodings ← lib (tokenizer_call tokenizer test_texts)
                        (rt_tokenize rt tokenizer test_texts);
  train_labels ← df_getitem train_dataset "category_id";
  let train_enc_dataset :=
    {| ds_encodings := train_encodings; ds_labels := train_labels |} in
  test_labels ← df_getitem test_dataset "category_id";
  let test_enc_dataset :=
    {| ds_encodings := test_encodings; ds_labels := test_labels |} in
  ret (train_enc_dataset, test_enc_dataset).

Definition train (rt : runtime) (environ : gmap string string)
    (args : gmap string pyobj) : Run unit :=
  datasets ← _get_tokenized_data rt environ;
  let train_enc_dataset := fst datasets in
  let test_enc_dataset := snd datasets in
  out ← getenv environ "SM_OUTPUT_DIR" "./";
  epochs ← getattr args "epochs";
  train_batch ← getattr args "per_device_train_batch_size";
  eval_batch ← getattr args "per_device_eval_batch_size";
  warmup ← getattr args "warmup_steps";
  decay ← getattr args "weight_decay";
  logging ← getattr args "logging_steps";
  let a := {| output_dir := out;
              num_train_epochs := epochs;
              per_device_train_batch_size := train_batch;
              per_device_eval_batch_size := eval_batch;
              warmup_steps := warmup;
              weight_decay := decay;
              logging_steps := logging |} in
  training_args ← lib_obj (training_arguments_init a) (rt_training_arguments rt a) a;
  let config := DistilBertConfig_default in
  let config := set_num_labels config NUM_LABELS in
  model ← lib_obj (model_from_pretrained MODEL_NAME config)
                   (rt_model_from_pretrained rt MODEL_NAME config)
                   (Pretrained MODEL_NAME config);
  _ ← lib_obj (trainer_init model training_args train_enc_dataset test_enc_dataset)
               (rt_trainer rt model training_args train_enc_dataset test_enc_dataset)
               tt;
  model ← lib_obj (trainer_train model training_args train_enc_dataset test_enc_dataset)
                   (rt_trainer_train rt model training_args train_enc_dataset test_enc_dataset)
                   (Trained model training_args train_enc_dataset test_enc_dataset);
  model_dir ← environ_getitem environ "SM_MODEL_DIR";
  lib_obj (model_save_pretrained model model_dir)
          (rt_save_pretrained rt model model_dir) tt.

(** The parser of the [__main__] block. *)
Definition script_parser : parser :=
  let parser := ArgumentParser in
  let parser := add_argument parser "--epochs" type_int (PyInt 1) in
  let parser := add_argument parser "--per-device-train-batch-size" type_int (PyInt 16) in
  let parser := add_argument parser "--per-device-eval-batch-size" type_int (PyInt 64) in
  let parser := add_argument parser "--warmup-steps" type_int (PyInt 100) in
  let parser := add_argument parser "--logging-steps" type_float (PyInt 100) in
  let parser := add_argument parser "--weight-decay" type_float
                  (PyFloat 0x1.47ae147ae147bp-7%float) in
  parser.

(** The body of [if __name__ == "__main__":], on [sys.argv[1:]]. *)
Definition main_block (rt : runtime) (environ : gmap string string)
    (argv : list string) : Run unit :=
  match parse_known_args (rt_float rt) script_parser argv with
  | inl s => raise (exn_of_stop s)
  | inr (args, _) => train rt environ args
  end.


End Train.

(** ** The order of the library calls

    Each call of a trace belongs to one function of a library. A routine
    follows a list of such functions when every run of it calls an initial
    part of the list, in order, and the whole list when it returns. *)

Module Sequences.

Definition call_name (c : call) : string :=
  match c with
  | os_environ_getitem _ => "os.environ[]"
  | os_getenv _ _ => "os.getenv"
  | pd_read_csv _ => "pd.read_csv"
  | tokenizer_from_pretrained _ => "DistilBertTokenizerFast.from_pretrained"
  | tokenizer_call _ _ => "tokenizer"
  | model_from_pretrained _ _ => "DistilBertForSequenceClassification.from_pretrained"
  | training_arguments_init _ => "TrainingArguments"
  | trainer_init _ _ _ _ => "Trainer"
  | trainer_train _ _ _ _ => "trainer.train"
  | model_save_pretrained _ _ => "model.save_pretrained"
  | torch_cuda_is_available => "torch.cuda.is_available"
  | transformers_pipeline _ => "pipeline"
  | json_loads _ => "json.loads"
  | pipeline_call _ _ => "inference_pipeline"
  | json_dumps _ => "json.dumps"
  end.

Definition follows {A} (names : list string) (m : Run A) : Prop :=
  (exists rest, names = map call_name (calls m) ++ rest) /\
  (forall a, outcome m = inr a -> map call_name (calls m) = names).




End Sequences.
Export Sequences.

(** ** A sample runtime

    One concrete set of library answers, on which the statements below are
    exercised. *)

Module Sample.

Definition sample_float (s : string) : option float :=
  if String.eqb s "0.5" then Some 0.5%float else None.

Definition sample_frame : dataframe :=
  [("data", [PyStr "first text"; PyStr "second text"]);
   ("category_id", [PyInt 3; PyInt 0])].

Definition sample_runtime : runtime := {|
  rt_read_csv := fun _ => inr sample_frame;
  rt_tokenizer_from_pretrained := fun _ => None;
  rt_tokenize := fun _ texts =>
    inr [("input_ids", map (fun _ => PyList [PyInt 101; PyInt 102]) texts)];
  rt_model_from_pretrained := fun _ _ => None;
  rt_trainer_train := fun _ _ _ _ => None;
  rt_save_pretrained := fun _ _ => None;
  rt_cuda_is_available := false;
  rt_pipeline := fun _ => None;
  rt_json_loads := fun data =>
    if String.eqb data "[1, 2]" then inr (PyList [PyInt 1; PyInt 2])
    else if String.eqb data "null" then inr PyNone
    else inl (Exn (OtherError "JSONDecodeError") "Expecting value");
  rt_pipeline_call := fun _ input =>
    match input with
    | PyList _ => inr (PyList [PyInt 0])
    | PyNone => inr (PyFloat 0.5%float)
    | _ => inl (Exn ValueError "unsupported input")
    end;
  rt_json_dumps := fun o =>
    match o with
    | PyList [PyInt 0] => inr "[0]"
    | _ => inl (Exn TypeError "Object is not JSON serializable")
    end;
  rt_float := sample_float;
  rt_training_arguments := fun _ => None;
  rt_trainer := fun _ _ _ _ => None
|}.


Definition sample_pipeline : pipeline := {|
  pl_model := Pretrained "/opt/ml/model" {| num_labels := 6 |};
  pl_task := "text-classification";
  pl_tokenizer := Tokenizer "distilbert-base-uncased";
  pl_framework := "pt";
  pl_device := (-1)%Z;
  pl_max_length := 512%Z;
  pl_truncation := true
|}.

(** The environment that the platform sets in a training container. *)
Definition sample_environ : gmap string string :=
  <["SM_CHANNEL_TRAIN" := "/opt/ml/input/data/train"]>
  (<["SM_CHANNEL_TEST" := "/opt/ml/input/data/test"]>
  (<["SM_OUTPUT_DIR" := "/opt/ml/output"]>
  (<["SM_MODEL_DIR" := "/opt/ml/model"]> ∅))).


Definition sample_argv : list string :=
  ["--epochs"; "3"; "--weight-decay"; "0.5"; "--unknown"; "x"].

Definition sample_args : gmap string pyobj :=
  <["epochs" := PyInt 3]>
  (<["weight_decay" := PyFloat 0.5%float]>
  (Argparse.add_defaults Train.script_parser ∅)).

Definition two_samples : DatasetExport.Bunch :=
  {| DatasetExport.data := ["first text"; "second text"];
     DatasetExport.target := [3%Z; 0%Z] |}.

Definition one_sample : DatasetExport.Bunch :=
  {| DatasetExport.data := ["third text"]; DatasetExport.target := [5%Z] |}.

End Sample.
Import Sample.

(** ** Hyperparameters as pairs

    The training platform starts the script with one [--name value] pair of
    arguments for each hyperparameter of the job. *)

Module Hyperparameters.
Import Argparse.

(** The command line for a list of (flag, value) pairs. *)
Definition flags_of (pairs : list (string * string)) : list string :=
  flat_map (fun kv => [fst kv; snd kv]) pairs.

(** What one pair does to the namespace: the value, converted by the type
    of the flag, is stored under the destination of the flag. *)
Definition assign (float_of_str : string -> option float) (p : parser)
    (ns : gmap string pyobj) (kv : string * string) : gmap string pyobj :=
  match lookup_action (option_string_actions p) (fst kv) with
  | Some (StoreAction _ dest t _) =>
      match get_value float_of_str t (snd kv) with
      | Some x => <[dest := x]> ns
      | None => ns
      end
  | _ => ns
  end.

(** A pair that names a flag of the parser and gives it a value that does
    not start with a dash and that the type of the flag converts. *)
Definition well_typed (float_of_str : string -> option float) (p : parser)
    (kv : string * string) : Prop :=
  exists dest t d,
    In (StoreAction (fst kv) dest t d) p /\
    String.prefix "-" (snd kv) = false /\
    is_Some (get_value float_of_str t (snd kv)).

End Hyperparameters.

(** ** Command lines that the script takes

    The parts of a command line on which the parser of train.py cannot
    stop, described by their text alone. *)

Module CommandLines.
Import Argparse.











End CommandLines.

(** ** Entries of a pattern *)

Module Patterns.
Import Argparse.

(** An entry whose option, if it has one, is an action of the parser. *)
Definition from_parser (p : parser) (sp : string * pat) : Prop :=
  match snd sp with
  | PO (OT (Some a) _ _) => In a p
  | _ => True
  end.

(** An entry that the consuming loop can only set aside. *)
Definition set_aside (sp : string * pat) : Prop :=
  snd sp = PA \/ snd sp = PDash.

End Patterns.
Export Patterns.

(** ** The notebook of the serving container: the test picture

    The cells that download a picture and resize it before it is sent to
    the endpoint. *)

Module ServingNotebook.

(** A picture: what it shows and its size. *)
Record image := { shows : string; width : Z; height : Z }.

(** What [cv2] and [matplotlib] answer. [cv2.imread] itself is a lookup in
    the directory: it returns [None] for a file that is not there. *)
Record graphics := {
  cv_resize : option image -> Z * Z -> exn + image;
  cv_imwrite : string -> image -> exn + bool;
  plt_imshow : option image -> option exn;
  plt_show : option exn
}.

Inductive graphics_call :=
| imread (path : string)
| resize (img : option image) (dsize : Z * Z)
| imwrite (path : string) (img : image)
| imshow (img : option image)
| show.

Definition TEST_IMAGE : string := "sample_image.jpg".

(** [! wget -O {TEST_IMAGE} url], when the download succeeds. *)
Definition download (picture : image) (dir : gmap string image) : gmap string image :=
  <[TEST_IMAGE := picture]> dir.

(** [resize_image(filename)]: the directory after the call, the calls made
    and the file name returned or the exception raised. *)
Definition resize_image (lib : graphics) (filename : string) (dir : gmap string image)
  : gmap string image * (list graphics_call * (exn + string)) :=
  let img := dir !! "152004091_5bfbc69bb3.jpg" in
  let t1 := [imread "152004091_5bfbc69bb3.jpg"; resize img (224, 224)%Z] in
  match cv_resize lib img (224, 224)%Z with
  | inl e => (dir, (t1, inl e))
  | inr resized_img =>
      let resized_filename := ("resized_" ++ TEST_IMAGE)%string in
      let t2 := t1 ++ [imwrite resized_filename resized_img] in
      match cv_imwrite lib resized_filename resized_img with
      | inl e => (dir, (t2, inl e))
      | inr written =>
          let dir' := if (written : bool)
                      then <[resized_filename := resized_img]> dir else dir in
          let shown := dir' !! resized_filename in
          let t3 := t2 ++ [imread resized_filename; imshow shown] in
          match plt_imshow lib shown with
          | Some e => (dir', (t3, inl e))
          | None =>
              match plt_show lib with
              | Some e => (dir', (t3 ++ [show], inl e))
              | None => (dir', (t3 ++ [show], inr resized_filename))
              end
          end
      end
  end.

End ServingNotebook.

(** ** Reading a dict *)

Module Dicts.

(** [d[key]] on a dict kept in insertion order, [None] for a missing key. *)
Fixpoint dict_get {A} (d : list (string * A)) (key : string) : option A :=
  match d with
  | [] => None
  | (k, v) :: rest => if String.eqb k key then Some v else dict_get rest key
  end.

End Dicts.
Export Dicts.

(** ** The cell of the notebook that queries the endpoint *)

Module EndpointTest.
Import DatasetExport.

(** [random.randint(a, b)] is some integer between [a] and [b], both
    included; which one is up to the state of the generator, here a natural
    number. *)
Definition randint (a b : nat) (state : nat) : nat := a + state mod (b - a + 1).

(** What the cell does that can be seen from outside: a request to the
    endpoint, a printed line (its three values). *)
Inductive event :=
| Request (texts : list string)
| Printed (sample_id : nat) (predicted : pyobj) (actual : Z).

(** [predictor.predict]: the endpoint's answer, a list of dicts once
    deserialized, or the exception of the call. *)
Definition predictor := list string -> exn + list (list (string * pyobj)).

(** The body of the loop, for one state of the generator. *)
Definition query_once (test_dataset : Bunch) (predict : predictor) (state : nat)
  : list event * option exn :=
  let sample_id := randint 0 (length (data test_dataset)) state in
  match data test_dataset !! sample_id with
  | None => ([], Some (Exn IndexError "list index out of range"))
  | Some text =>
      match predict [text] with
      | inl e => ([Request [text]], Some e)
      | inr prediction =>
          match prediction with
          | [] => ([Request [text]], Some (Exn IndexError "list index out of range"))
          | first :: _ =>
              match dict_get first "label" with
              | None => ([Request [text]], Some (Exn KeyError "label"))
              | Some label =>
                  match target test_dataset !! sample_id with
                  | None =>
                      ([Request [text]],
                       Some (Exn IndexError
                         ("index " ++ str_of_int (Z.of_nat sample_id)
                          ++ " is out of bounds for axis 0 with size "
                          ++ str_of_int (Z.of_nat (length (target test_dataset))))))
                  | Some actual =>
                      ([Request [text]; Printed sample_id label actual], None)
                  end
              end
          end
      end
  end.

(** [for i in range(...)]: the turns of the loop, each with the state of the
    generator at that turn, until one raises. *)
Fixpoint query_loop (test_dataset : Bunch) (predict : predictor)
    (states : list nat) : list event * option exn :=
  match states with
  | [] => ([], None)
  | state :: rest =>
      match query_once test_dataset predict state with
      | (events, Some e) => (events, Some e)
      | (events, None) =>
          let (more, r) := query_loop test_dataset predict rest in
          (events ++ more, r)
      end
  end.

(** The cell: ten turns. *)
Definition query_cell (test_dataset : Bunch) (predict : predictor)
    (generator : nat -> nat) : list event * option exn :=
  query_loop test_dataset predict (map generator (seq 0 10)).

End EndpointTest.

(** ** More samples *)

Module MoreSamples.

(** A training container whose environment lacks [SM_MODEL_DIR]. *)
Definition environ_without_model_dir : gmap string string :=
  delete "SM_MODEL_DIR" sample_environ.

(** A runtime on which the model cannot be written. *)
Definition full_disk_runtime : runtime := {|
  rt_read_csv := rt_read_csv sample_runtime;
  rt_tokenizer_from_pretrained := rt_tokenizer_from_pretrained sample_runtime;
  rt_tokenize := rt_tokenize sample_runtime;
  rt_model_from_pretrained := rt_model_from_pretrained sample_runtime;
  rt_trainer_train := rt_trainer_train sample_runtime;
  rt_save_pretrained := fun _ _ => Some (Exn (OtherError "OSError") "No space left on device");
  rt_cuda_is_available := rt_cuda_is_available sample_runtime;
  rt_pipeline := rt_pipeline sample_runtime;
  rt_json_loads := rt_json_loads sample_runtime;
  rt_pipeline_call := rt_pipeline_call sample_runtime;
  rt_json_dumps := rt_json_dumps sample_runtime;
  rt_float := rt_float sample_runtime;
  rt_training_arguments := rt_training_arguments sample_runtime;
  rt_trainer := rt_trainer sample_runtime
|}.

(** Graphics libraries that work, and refuse a missing picture. *)
Definition sample_graphics : ServingNotebook.graphics := {|
  ServingNotebook.cv_resize := fun img dsize =>
    match img with
    | Some i => inr {| ServingNotebook.shows := ServingNotebook.shows i;
                       ServingNotebook.width := fst dsize;
                       ServingNotebook.height := snd dsize |}
    | None => inl (Exn (OtherError "cv2.error") "resize: empty source")
    end;
  ServingNotebook.cv_imwrite := fun _ _ => inr true;
  ServingNotebook.plt_imshow := fun _ => None;
  ServingNotebook.plt_show := None
|}.

Definition bee : ServingNotebook.image :=
  {| ServingNotebook.shows := "a bee on a flower";
     ServingNotebook.width := 500; ServingNotebook.height := 375 |}.

(** An endpoint that answers every request with one prediction. *)
Definition sample_predictor : EndpointTest.predictor :=
  fun _ => inr [[("label", PyStr "LABEL_3"); ("score", PyFloat 0.5%float)]].

(** A training set with a text that has no category id. *)
Definition short_target : DatasetExport.Bunch :=
  {| DatasetExport.data := ["first text"; "second text"];
     DatasetExport.target := [3%Z] |}.

(** A [torch.tensor] that converts numbers and lists and refuses text. *)
Definition text_refused (v : pyobj) : option exn :=
  match v with
  | PyStr _ => Some (Exn TypeError "new(): invalid data type 'str'")
  | _ => None
  end.

Definition sample_dataset : CustomDataset :=
  {| ds_encodings :=
       [("input_ids", [PyList [PyInt 101; PyInt 7]; PyList [PyInt 101; PyInt 9]]);
        ("attention_mask", [PyList [PyInt 1; PyInt 1]; PyList [PyInt 1; PyInt 1]])];
     ds_labels := [PyInt 3; PyInt 0] |}.

Definition sample_texts : list pyobj := [PyStr "first text"; PyStr "second text"].
Definition sample_labels : list pyobj := [PyInt 3; PyInt 0].
Definition sample_encodings : encodings :=
  [("input_ids", [PyList [PyInt 101; PyInt 102]; PyList [PyInt 101; PyInt 102]])].

End MoreSamples.
Import MoreSamples.

(** * Properties *)

(** ** The substring test *)

Lemma prefix_app (n b : string) : String.prefix n (n ++ b)%string = true.
Proof.
  induction n as [|c n IH]; simpl.
  - destruct b; reflexivity.
  - destruct (ascii_dec c c) as [_|ne]; [exact IH | congruence].
Qed.

Lemma prefix_inv (n h : string) :
  String.prefix n h = true -> exists b, h = (n ++ b)%string.
Proof.
  revert h; induction n as [|c n IH]; intros h Hp.
  - exists h; reflexivity.
  - destruct h as [|c' h]; simpl in Hp; [discriminate|].
    destruct (ascii_dec c c') as [->|ne]; [|discriminate].
    destruct (IH _ Hp) as [b ->]. exists b; reflexivity.
Qed.

Lemma str_contains_nil (n : string) : str_contains n "" = String.prefix n "".
Proof. simpl. destruct n; reflexivity. Qed.

Lemma str_contains_cons (n : string) (c : ascii) (h : string) :
  str_contains n (String c h) =
  if String.prefix n (String c h) then true else str_contains n h.
Proof. reflexivity. Qed.

(** [needle in hay] holds exactly when [hay] is [needle] with some text
    before and after it. *)
Lemma str_contains_spec (needle hay : string) :
  str_contains needle hay = true <-> exists a b, hay = (a ++ needle ++ b)%string.
Proof.
  split.
  - induction hay as [|c hay IH]; intros H.
    + rewrite str_contains_nil in H.
      destruct (prefix_inv _ _ H) as [b Hb]. exists "", b; exact Hb.
    + rewrite str_contains_cons in H.
      destruct (String.prefix needle (String c hay)) eqn:Hp.
      * destruct (prefix_inv _ _ Hp) as [b Hb]. exists "", b; exact Hb.
      * destruct (IH H) as (a & b & ->). exists (String c a), b; reflexivity.
  - intros (a & b & ->). induction a as [|c a IH].
    + change ("" ++ needle ++ b)%string with (needle ++ b)%string.
      destruct (needle ++ b)%string eqn:E.
      * rewrite str_contains_nil, <- E. apply prefix_app.
      * rewrite str_contains_cons, <- E, prefix_app. reflexivity.
    + change (String c a ++ needle ++ b)%string
        with (String c (a ++ needle ++ b))%string.
      rewrite str_contains_cons, IH. destruct (String.prefix _ _); reflexivity.
Qed.

Example str_contains_examples :
  str_contains "json" "application/json" = true /\
  str_contains "json" "application/json; charset=utf-8" = true /\
  str_contains "json" "text/csv" = false /\
  str_contains "json" "JSON" = false /\
  str_contains "json" "" = false /\
  str_contains "" "" = true.
Proof. repeat split; reflexivity. Qed.

Example os_path_join_examples :
  os_path_join "/opt/ml/input/data/train" "train_dataset.csv"
  = "/opt/ml/input/data/train/train_dataset.csv" /\
  os_path_join "/opt/ml/input/data/test/" "test_dataset.csv"
  = "/opt/ml/input/data/test/test_dataset.csv" /\
  os_path_join "" "train_dataset.csv" = "train_dataset.csv".
Proof. repeat split; reflexivity. Qed.

Example str_of_int_examples :
  str_of_int 0 = "0" /\ str_of_int 5 = "5" /\ str_of_int 19 = "19" /\
  str_of_int (-3) = "-3".
Proof. repeat split; reflexivity. Qed.

(** ** inference.py *)

Section TransformFn.

Variable rt : runtime.
Variable inference_pipeline : pipeline.
Variables data content_type accept_type : string.

Let run := Inference.transform_fn rt inference_pipeline data content_type accept_type.

Lemma raise_NotImplemented (A : Type) (msg : string) :
  (py_call PyNotImplemented msg ≫= @py_raise A) = ([], inl not_callable).
Proof. reflexivity. Qed.

Lemma transform_fn_content_refused :
  str_contains "json" content_type = false -> run = ([], inl not_callable).
Proof.
  intros H. unfold run, Inference.transform_fn. rewrite H. reflexivity.
Qed.

Lemma transform_fn_loads_fails (e : exn) :
  str_contains "json" content_type = true ->
  rt_json_loads rt data = inl e ->
  run = ([json_loads data], inl e).
Proof.
  intros H L. unfold run, Inference.transform_fn. rewrite H.
  unfold lib, mbind, run_bind, bind. rewrite L. reflexivity.
Qed.

Lemma transform_fn_pipeline_fails (d : pyobj) (e : exn) :
  str_contains "json" content_type = true ->
  rt_json_loads rt data = inr d ->
  rt_pipeline_call rt inference_pipeline d = inl e ->
  run = ([json_loads data; pipeline_call inference_pipeline d], inl e).
Proof.
  intros H L P. unfold run, Inference.transform_fn. rewrite H.
  unfold lib, mbind, run_bind, bind. rewrite L, P. reflexivity.
Qed.

Lemma transform_fn_accept_refused (d p : pyobj) :
  str_contains "json" content_type = true ->
  str_contains "json" accept_type = false ->
  rt_json_loads rt data = inr d ->
  rt_pipeline_call rt inference_pipeline d = inr p ->
  run = ([json_loads data; pipeline_call inference_pipeline d], inl not_callable).
Proof.
  intros H A L P. unfold run, Inference.transform_fn. rewrite H, A.
  unfold lib, mbind, run_bind, bind. rewrite L, P. reflexivity.
Qed.

Lemma transform_fn_dumps (d p : pyobj) :
  str_contains "json" content_type = true ->
  str_contains "json" accept_type = true ->
  rt_json_loads rt data = inr d ->
  rt_pipeline_call rt inference_pipeline d = inr p ->
  run = ([json_loads data; pipeline_call inference_pipeline d; json_dumps p],
         rt_json_dumps rt p).
Proof.
  intros H A L P. unfold run, Inference.transform_fn. rewrite H, A.
  unfold lib, mbind, run_bind, bind. rewrite L, P. reflexivity.
Qed.

(** C1. With a content type and an accept type that contain "json", a
    payload that [json.loads] reads and predictions that [json.dumps] can
    write, [transform_fn] returns the JSON text of the pipeline's predictions
    on the deserialized payload, after calling the three in that order. *)
Theorem transform_fn_returns_json (d p : pyobj) (s : string) :
  str_contains "json" content_type = true ->
  str_contains "json" accept_type = true ->
  rt_json_loads rt data = inr d ->
  rt_pipeline_call rt inference_pipeline d = inr p ->
  rt_json_dumps rt p = inr s ->
  run = ([json_loads data; pipeline_call inference_pipeline d; json_dumps p], inr s).
Proof.
  intros H A L P D. rewrite (transform_fn_dumps d p H A L P), D. reflexivity.
Qed.

(** C5. An exception of [json.loads], of the pipeline or of [json.dumps] is
    the outcome of [transform_fn] as it was raised, and the call that raised
    it is the last one made: nothing is caught, retried or wrapped. *)
Theorem transform_fn_propagates (e : exn) :
  str_contains "json" content_type = true ->
  (rt_json_loads rt data = inl e -> run = ([json_loads data], inl e)) /\
  (forall d, rt_json_loads rt data = inr d ->
     rt_pipeline_call rt inference_pipeline d = inl e ->
     run = ([json_loads data; pipeline_call inference_pipeline d], inl e)) /\
  (forall d p, rt_json_loads rt data = inr d ->
     rt_pipeline_call rt inference_pipeline d = inr p ->
     str_contains "json" accept_type = true ->
     rt_json_dumps rt p = inl e ->
     run = ([json_loads data; pipeline_call inference_pipeline d; json_dumps p], inl e)).
Proof.
  intros H. repeat split.
  - intros L. exact (transform_fn_loads_fails e H L).
  - intros d L P. exact (transform_fn_pipeline_fails d e H L P).
  - intros d p L P A D. rewrite (transform_fn_dumps d p H A L P), D. reflexivity.
Qed.

(** C9. When the content type contains "json", the accept type does not and
    the payload deserializes, the pipeline is called on the deserialized
    payload and the run then ends in an exception: the call is in the trace
    of the failed request, and when the pipeline returns, the exception is
    the one of the accept-type branch, raised after the call. *)
Theorem transform_fn_infers_before_refusing (d : pyobj) :
  str_contains "json" content_type = true ->
  str_contains "json" accept_type = false ->
  rt_json_loads rt data = inr d ->
  calls run = [json_loads data; pipeline_call inference_pipeline d] /\
  (exists e, outcome run = inl e) /\
  (forall p, rt_pipeline_call rt inference_pipeline d = inr p ->
     outcome run = inl not_callable).
Proof.
  intros H A L.
  destruct (rt_pipeline_call rt inference_pipeline d) as [e|p] eqn:P.
  - rewrite (transform_fn_pipeline_fails d e H L P).
    split; [reflexivity|]. split; [exists e; reflexivity|]. discriminate.
  - rewrite (transform_fn_accept_refused d p H A L P).
    split; [reflexivity|]. split; [exists not_callable|]; reflexivity.
Qed.

End TransformFn.

Lemma transform_fn_returns_json_witness :
  Inference.transform_fn sample_runtime sample_pipeline
    "[1, 2]" "application/json" "application/json"
  = ([json_loads "[1, 2]";
      pipeline_call sample_pipeline (PyList [PyInt 1; PyInt 2]);
      json_dumps (PyList [PyInt 0])],
     inr "[0]").
Proof.
  apply (transform_fn_returns_json sample_runtime sample_pipeline
           "[1, 2]" "application/json" "application/json"
           (PyList [PyInt 1; PyInt 2]) (PyList [PyInt 0]) "[0]");
    reflexivity.
Defined.

Lemma transform_fn_propagates_witness :
  Inference.transform_fn sample_runtime sample_pipeline
    "{oops" "application/json" "application/json"
  = ([json_loads "{oops"],
     inl (Exn (OtherError "JSONDecodeError") "Expecting value")).
Proof.
  apply (proj1 (transform_fn_propagates sample_runtime sample_pipeline
                  "{oops" "application/json" "application/json"
                  (Exn (OtherError "JSONDecodeError") "Expecting value")
                  eq_refl)).
  reflexivity.
Defined.

Lemma transform_fn_infers_before_refusing_witness :
  calls (Inference.transform_fn sample_runtime sample_pipeline
           "[1, 2]" "application/json" "text/csv")
  = [json_loads "[1, 2]"; pipeline_call sample_pipeline (PyList [PyInt 1; PyInt 2])].
Proof.
  apply (proj1 (transform_fn_infers_before_refusing sample_runtime sample_pipeline
                  "[1, 2]" "application/json" "text/csv"
                  (PyList [PyInt 1; PyInt 2]) eq_refl eq_refl eq_refl)).
Defined.

(** C2. A request whose content type is "text/csv" ends in a [TypeError]
    for every runtime, pipeline, payload and accept type, and so does one
    whose accept type is "text/csv" after a successful inference: the
    exception is not a [NotImplementedError] and carries neither of the two
    messages written in the script. *)
Theorem transform_fn_refusal_is_TypeError :
  (forall rt pl data accept_type,
     Inference.transform_fn rt pl data "text/csv" accept_type
     = ([], inl (Exn TypeError "'NotImplementedType' object is not callable"))) /\
  outcome (Inference.transform_fn sample_runtime sample_pipeline
             "[1, 2]" "application/json" "text/csv")
  = inl (Exn TypeError "'NotImplementedType' object is not callable") /\
  not_callable
  <> Exn NotImplementedError "Only 'application/json' content type is supported." /\
  not_callable
  <> Exn NotImplementedError "Only 'application/json' accept type is supported.".
Proof.
  split; [intros; reflexivity|].
  split; [reflexivity|].
  split; discriminate.
Qed.

Section ModelFn.

Variable rt : runtime.
Variable model_dir : string.

(** C6. When the tokenizer, the model and the pipeline load, [model_fn]
    returns the text-classification pipeline made of the model read from
    [model_dir] under a configuration of six labels and of the pretrained
    tokenizer, on the first CUDA device if there is one and on the CPU
    otherwise, with inputs cut at 512 tokens. *)
Theorem model_fn_returns_pipeline :
  let config := {| num_labels := 6 |} in
  let p := {| pl_model := Pretrained model_dir config;
              pl_task := "text-classification";
              pl_tokenizer := Tokenizer "distilbert-base-uncased";
              pl_framework := "pt";
              pl_device := if rt_cuda_is_available rt then 0%Z else (-1)%Z;
              pl_max_length := 512%Z;
              pl_truncation := true |} in
  rt_tokenizer_from_pretrained rt "distilbert-base-uncased" = None ->
  rt_model_from_pretrained rt model_dir config = None ->
  rt_pipeline rt p = None ->
  Inference.model_fn rt model_dir
  = ([torch_cuda_is_available;
      tokenizer_from_pretrained "distilbert-base-uncased";
      model_from_pretrained model_dir config;
      transformers_pipeline p],
     inr p).
Proof.
  intros config p T M P.
  unfold Inference.model_fn, lib, lib_obj, mbind, run_bind, bind.
  unfold Inference.MODEL_NAME, Inference.NUM_LABELS, Inference.MAX_LENGTH.
  unfold set_num_labels. rewrite T. fold config. rewrite M. fold p. rewrite P. reflexivity.
Qed.

End ModelFn.

Lemma model_fn_returns_pipeline_witness :
  outcome (Inference.model_fn sample_runtime "/opt/ml/model") = inr sample_pipeline.
Proof.
  rewrite (model_fn_returns_pipeline sample_runtime "/opt/ml/model"
             eq_refl eq_refl eq_refl).
  reflexivity.
Defined.

(** ** The dataset export cell *)

Section ExportCell.
Import DatasetExport.

Lemma alter_known {A} (f : A -> A) (m : gmap string A) (i : string) (x : A) :
  m !! i = Some x -> alter f i m = <[i := f x]> m.
Proof.
  intros H. apply map_eq; intros j. destruct (decide (i = j)) as [->|ne].
  - rewrite lookup_alter_eq, lookup_insert_eq, H. reflexivity.
  - rewrite lookup_alter_ne, lookup_insert_ne by exact ne. reflexivity.
Qed.

Lemma for_each_cons_ok {A} (x : A) (xs : list A) (body : A -> IO unit)
    (fs fs' : filesystem) :
  body x fs = (fs', inr tt) ->
  for_each (x :: xs) body fs = for_each xs body fs'.
Proof.
  intros H. cbn [for_each]. unfold mbind, io_mbind, io_bind. rewrite H. reflexivity.
Qed.

(** One turn of the inner loop appends the record of sample [i]. *)
Lemma export_row (d : Bunch) (file : string) (i : nat) (x : string) (c : Z)
    (fs : filesystem) (acc : list csv_record) :
  data d !! i = Some x ->
  target d !! i = Some c ->
  fs !! file = Some acc ->
  (x ← list_getitem (data d) i;
   c ← ndarray_getitem (target d) i;
   writerow {| dw_file := file; fieldnames := header |}
            [("data", CellStr x); ("category_id", CellInt c)]) fs
  = (<[file := acc ++ [[x; str_of_int c]]]> fs, inr tt).
Proof.
  intros Hx Hc Hacc.
  unfold mbind, io_mbind, io_bind, list_getitem, ndarray_getitem.
  rewrite Hx, Hc. unfold mret, io_mret, io_ret, writerow, write_record.
  cbn -[alter str_of_int]. rewrite (alter_known _ _ _ _ Hacc). reflexivity.
Qed.

Lemma write_loop (d : Bunch) (file : string) :
  forall (n k : nat) (fs : filesystem) (acc : list csv_record),
    k + n = length (data d) ->
    length (data d) <= length (target d) ->
    fs !! file = Some acc ->
    for_each (seq k n) (fun i =>
      x ← list_getitem (data d) i;
      c ← ndarray_getitem (target d) i;
      writerow {| dw_file := file; fieldnames := header |}
               [("data", CellStr x); ("category_id", CellInt c)]) fs
    = (<[file := acc ++ zip_with (fun text c => [text; str_of_int c])
                          (drop k (data d)) (drop k (target d))]> fs, inr tt).
Proof.
  induction n as [|n IH]; intros k fs acc Hk Hlen Hacc.
  - cbn [seq for_each]. rewrite drop_ge by lia. cbn [zip_with]. rewrite app_nil_r.
    rewrite insert_id by exact Hacc. reflexivity.
  - destruct (lookup_lt_is_Some_2 (data d) k ltac:(lia)) as [x Hx].
    destruct (lookup_lt_is_Some_2 (target d) k ltac:(lia)) as [c Hc].
    rewrite (drop_S _ _ _ Hx), (drop_S _ _ _ Hc).
    cbn [seq zip_with].
    match goal with |- for_each _ ?b _ = _ => set (body := b) in * end.
    rewrite (for_each_cons_ok k (seq (S k) n) body fs _
               (export_row d file k x c fs acc Hx Hc Hacc)).
    rewrite (IH (S k) _ (acc ++ [[x; str_of_int c]])).
    + rewrite insert_insert_eq, <- app_assoc. reflexivity.
    + lia.
    + exact Hlen.
    + apply lookup_insert_eq.
Qed.

(** Each of the two files receives the header and then the rows of
    [train_dataset], whatever [test_dataset] is. *)
Lemma export_cell_files (train_dataset test_dataset : Bunch) (fs : filesystem) :
  length (data train_dataset) <= length (target train_dataset) ->
  export_cell train_dataset test_dataset fs
  = (<["test_dataset.csv" := header :: expected_rows train_dataset]>
       (<["train_dataset.csv" := header :: expected_rows train_dataset]> fs),
     inr tt).
Proof.
  intros Hlen. unfold export_cell.
  assert (one : forall file (fs0 : filesystem),
    (open_w file ≫= fun _ =>
     let w := {| dw_file := file; fieldnames := ["data"; "category_id"] |} in
     writeheader w ≫= fun _ =>
     for_each (seq 0 (length (data train_dataset))) (fun i =>
       d ← list_getitem (data train_dataset) i;
       c ← ndarray_getitem (target train_dataset) i;
       writerow w [("data", CellStr d); ("category_id", CellInt c)])) fs0
    = (<[file := header :: expected_rows train_dataset]> fs0, inr tt)).
  { intros file fs0.
    unfold mbind at 1 2. unfold io_mbind, io_bind, open_w, writeheader, write_record.
    cbn -[alter for_each seq].
    rewrite (alter_known _ _ _ [] (lookup_insert_eq _ _ _)).
    rewrite insert_insert_eq.
    rewrite (write_loop train_dataset file _ 0 _ [header]);
      [| reflexivity | exact Hlen | apply lookup_insert_eq].
    rewrite insert_insert_eq. reflexivity. }
  match goal with |- for_each _ ?b _ = _ => set (body := b) in * end.
  rewrite (for_each_cons_ok "train_dataset.csv" ["test_dataset.csv"] body fs _
             (one "train_dataset.csv" fs)).
  rewrite (for_each_cons_ok "test_dataset.csv" [] body _ _
             (one "test_dataset.csv" _)).
  reflexivity.
Qed.

(** C3. On a training set of two samples and a test set of one sample the
    cell ends normally, and [test_dataset.csv] holds the two rows of the
    training set: neither the number of its rows nor their category ids are
    those of the test set. *)
Theorem export_cell_test_file_holds_train_rows :
  let run := export_cell two_samples one_sample ∅ in
  snd run = inr tt /\
  data_rows (fst run) "train_dataset.csv" = expected_rows two_samples /\
  data_rows (fst run) "test_dataset.csv" = [["first text"; "3"]; ["second text"; "0"]] /\
  expected_rows one_sample = [["third text"; "5"]] /\
  length (data_rows (fst run) "test_dataset.csv") <> length (data one_sample).
Proof.
  cbv zeta.
  rewrite (export_cell_files two_samples one_sample ∅ ltac:(cbn; lia)).
  cbn [fst snd]. unfold data_rows.
  rewrite lookup_insert_eq.
  rewrite lookup_insert_ne by discriminate. rewrite lookup_insert_eq.
  repeat split. cbn. lia.
Qed.

End ExportCell.

(** ** train.py: what the parser leaves in the namespace *)

Section ParsedNamespace.
Import Argparse.

Variable float_of_str : string -> option float.

(** Consuming arguments never removes an attribute. *)
Lemma consume_keeps (k : string) :
  forall (n : nat) (l : list (string * pat)) (ns ns' : gmap string pyobj)
         (extras extras' : list string),
    length l <= n ->
    consume float_of_str ns extras l = inr (ns', extras') ->
    is_Some (ns !! k) -> is_Some (ns' !! k).
Proof.
  induction n as [|n IH]; intros l ns ns' extras extras' Hn H Hk.
  - destruct l; [|simpl in Hn; lia]. cbn in H. congruence.
  - destruct l as [|[s p] r]; [cbn in H; congruence|]. cbn [length] in Hn.
    destruct p as [| |[[[|o' dest t dflt]|] o [e|]]]; cbn [consume] in H;
      try discriminate;
      try (eapply IH; [| exact H | exact Hk]; lia).
    + destruct (second_is_dash o); [discriminate|].
      destruct (chars e); discriminate.
    + destruct (get_values float_of_str o t [e]) as [rf|v]; [discriminate|].
      eapply IH; [| exact H |]; [lia|].
      destruct (decide (dest = k)) as [->|ne];
        [rewrite lookup_insert_eq; eauto | rewrite lookup_insert_ne by exact ne; exact Hk].
    + destruct r as [|[v [| |u]] r']; try discriminate.
      destruct (get_values float_of_str o t [v]) as [rf|x]; [discriminate|].
      eapply IH; [| exact H |]; [cbn [length] in Hn; lia|].
      destruct (decide (dest = k)) as [->|ne];
        [rewrite lookup_insert_eq; eauto | rewrite lookup_insert_ne by exact ne; exact Hk].
Qed.

(** After a successful parse every hyperparameter of the script is an
    attribute of the namespace. *)
Lemma parsed_attribute (argv : list string) (args : gmap string pyobj)
    (extras : list string) (name : string) :
  parse_known_args float_of_str Train.script_parser argv = inr (args, extras) ->
  In name ["epochs"; "per_device_train_batch_size"; "per_device_eval_batch_size";
           "warmup_steps"; "weight_decay"; "logging_steps"] ->
  Train.getattr args name = ret (args !!! name).
Proof.
  intros H Hin. unfold parse_known_args in H.
  destruct (classify Train.script_parser argv) as [r|l]; [discriminate|].
  assert (Hs : is_Some (args !! name)).
  { eapply (consume_keeps name (length l)); [reflexivity | exact H |].
    cbn in Hin.
    repeat (destruct Hin as [<-|Hin]; [vm_compute; eauto|]). contradiction. }
  destruct Hs as [v Hv]. unfold Train.getattr.
  rewrite (lookup_total_correct _ _ _ Hv), Hv. reflexivity.
Qed.

End ParsedNamespace.

(** ** train.py: one training run *)

Section TrainRun.
Import Argparse.

Variable rt : runtime.
Variable environ : gmap string string.
Variable argv : list string.
Variable args : gmap string pyobj.
Variable extras : list string.
Variables train_dir test_dir model_dir : string.
Variables train_frame test_frame : dataframe.
Variables train_texts test_texts train_labels test_labels : list pyobj.
Variables train_encodings test_encodings : encodings.

Let train_path := os_path_join train_dir "train_dataset.csv".
Let test_path := os_path_join test_dir "test_dataset.csv".
Let tok := Tokenizer "distilbert-base-uncased".
Let config := {| num_labels := 6 |}.
Let pretrained := Pretrained "distilbert-base-uncased" config.
Let train_enc_dataset :=
  {| ds_encodings := train_encodings; ds_labels := train_labels |}.
Let test_enc_dataset :=
  {| ds_encodings := test_encodings; ds_labels := test_labels |}.
Let training_args := {|
  output_dir := match environ !! "SM_OUTPUT_DIR" with Some v => v | None => "./" end;
  num_train_epochs := args !!! "epochs";
  per_device_train_batch_size := args !!! "per_device_train_batch_size";
  per_device_eval_batch_size := args !!! "per_device_eval_batch_size";
  warmup_steps := args !!! "warmup_steps";
  weight_decay := args !!! "weight_decay";
  logging_steps := args !!! "logging_steps" |}.
Let trained := Trained pretrained training_args train_enc_dataset test_enc_dataset.

Hypothesis flags_parse :
  parse_known_args (rt_float rt) Train.script_parser argv = inr (args, extras).
Hypothesis channel_train : environ !! "SM_CHANNEL_TRAIN" = Some train_dir.
Hypothesis channel_test : environ !! "SM_CHANNEL_TEST" = Some test_dir.
Hypothesis model_dir_set : environ !! "SM_MODEL_DIR" = Some model_dir.
Hypothesis read_train : rt_read_csv rt train_path = inr train_frame.
Hypothesis read_test : rt_read_csv rt test_path = inr test_frame.
Hypothesis train_data : Train.df_getitem train_frame "data" = ret train_texts.
Hypothesis test_data : Train.df_getitem test_frame "data" = ret test_texts.
Hypothesis train_category : Train.df_getitem train_frame "category_id" = ret train_labels.
Hypothesis test_category : Train.df_getitem test_frame "category_id" = ret test_labels.
Hypothesis tokenizer_loads :
  rt_tokenizer_from_pretrained rt "distilbert-base-uncased" = None.
Hypothesis tokenize_train : rt_tokenize rt tok train_texts = inr train_encodings.
Hypothesis tokenize_test : rt_tokenize rt tok test_texts = inr test_encodings.
Hypothesis arguments_accepted : rt_training_arguments rt training_args = None.
Hypothesis model_loads :
  rt_model_from_pretrained rt "distilbert-base-uncased" config = None.
Hypothesis trainer_built :
  rt_trainer rt pretrained training_args train_enc_dataset test_enc_dataset = None.
Hypothesis training_succeeds :
  rt_trainer_train rt pretrained training_args train_enc_dataset test_enc_dataset = None.
Hypothesis model_saved : rt_save_pretrained rt trained model_dir = None.

Lemma bind_ret {A B} (a : A) (k : A -> Run B) : (ret a ≫= k) = k a.
Proof.
  unfold mbind, run_bind, bind, ret. destruct (k a) as [t r]. reflexivity.
Qed.

Lemma bind_lib {A B} (c : call) (a : A) (k : A -> Run B) :
  (lib c (inr a) ≫= k) = (c :: calls (k a), outcome (k a)).
Proof.
  unfold mbind, run_bind, bind, lib, calls, outcome. destruct (k a); reflexivity.
Qed.

Lemma bind_lib_obj {A B} (c : call) (a : A) (k : A -> Run B) :
  (lib_obj c None a ≫= k) = (c :: calls (k a), outcome (k a)).
Proof.
  unfold mbind, run_bind, bind, lib_obj, calls, outcome. destruct (k a); reflexivity.
Qed.

Lemma tokenized_data_run :
  Train._get_tokenized_data rt environ
  = ([os_environ_getitem "SM_CHANNEL_TRAIN"; pd_read_csv train_path;
      os_environ_getitem "SM_CHANNEL_TEST"; pd_read_csv test_path;
      tokenizer_from_pretrained "distilbert-base-uncased";
      tokenizer_call tok train_texts; tokenizer_call tok test_texts],
     inr (train_enc_dataset, test_enc_dataset)).
Proof.
  unfold Train._get_tokenized_data, environ_getitem, Train.MODEL_NAME.
  rewrite channel_train, bind_lib. fold train_path. rewrite read_train, bind_lib.
  rewrite channel_test, bind_lib. fold test_path. rewrite read_test, bind_lib.
  rewrite tokenizer_loads, bind_lib_obj. fold tok.
  rewrite train_data, bind_ret, tokenize_train, bind_lib.
  rewrite test_data, bind_ret, tokenize_test, bind_lib.
  rewrite train_category, bind_ret, test_category, bind_ret.
  reflexivity.
Qed.

(** C4. When the flags of the command line parse and the libraries do their
    part, the training script reads exactly two files, one in the directory
    named by [SM_CHANNEL_TRAIN] and one in the directory named by
    [SM_CHANNEL_TEST], trains with the hyperparameters that the flags gave,
    and as its last step saves the trained model into the directory named by
    [SM_MODEL_DIR]. *)
Theorem training_reads_channels_and_saves_model :
  Train.main_block rt environ argv
  = ([os_environ_getitem "SM_CHANNEL_TRAIN"; pd_read_csv train_path;
      os_environ_getitem "SM_CHANNEL_TEST"; pd_read_csv test_path;
      tokenizer_from_pretrained "distilbert-base-uncased";
      tokenizer_call tok train_texts; tokenizer_call tok test_texts;
      os_getenv "SM_OUTPUT_DIR" "./";
      training_arguments_init training_args;
      model_from_pretrained "distilbert-base-uncased" config;
      trainer_init pretrained training_args train_enc_dataset test_enc_dataset;
      trainer_train pretrained training_args train_enc_dataset test_enc_dataset;
      os_environ_getitem "SM_MODEL_DIR";
      model_save_pretrained trained model_dir],
     inr tt).
Proof.
  unfold Train.main_block. rewrite flags_parse. unfold Train.train.
  rewrite tokenized_data_run.
  unfold mbind at 1. unfold run_bind, bind. cbn [fst snd].
  unfold getenv. rewrite bind_lib.
  rewrite !(parsed_attribute _ _ _ _ _ flags_parse) by (cbn; tauto).
  rewrite !bind_ret. fold training_args.
  rewrite arguments_accepted, bind_lib_obj.
  unfold Train.MODEL_NAME, Train.NUM_LABELS, set_num_labels. fold config.
  rewrite model_loads, bind_lib_obj. fold pretrained.
  rewrite trainer_built, bind_lib_obj.
  rewrite training_succeeds, bind_lib_obj. fold trained.
  unfold environ_getitem. rewrite model_dir_set, bind_lib.
  rewrite model_saved. reflexivity.
Qed.

End TrainRun.

Lemma training_reads_channels_and_saves_model_witness :
  let argv := sample_argv in
  outcome (Train.main_block sample_runtime sample_environ argv) = inr tt /\
  List.filter (fun c => match c with pd_read_csv _ | model_save_pretrained _ _ => true | _ => false end)
         (calls (Train.main_block sample_runtime sample_environ argv))
  = [pd_read_csv "/opt/ml/input/data/train/train_dataset.csv";
     pd_read_csv "/opt/ml/input/data/test/test_dataset.csv";
     model_save_pretrained
       (Trained (Pretrained "distilbert-base-uncased" {| num_labels := 6 |})
          {| output_dir := "/opt/ml/output";
             num_train_epochs := PyInt 3;
             per_device_train_batch_size := PyInt 16;
             per_device_eval_batch_size := PyInt 64;
             warmup_steps := PyInt 100;
             weight_decay := PyFloat 0.5%float;
             logging_steps := PyInt 100 |}
          {| ds_encodings :=
               [("input_ids", [PyList [PyInt 101; PyInt 102]; PyList [PyInt 101; PyInt 102]])];
             ds_labels := [PyInt 3; PyInt 0] |}
          {| ds_encodings :=
               [("input_ids", [PyList [PyInt 101; PyInt 102]; PyList [PyInt 101; PyInt 102]])];
             ds_labels := [PyInt 3; PyInt 0] |})
       "/opt/ml/model"].
Proof.
  cbv zeta.
  set (texts := [PyStr "first text"; PyStr "second text"]).
  set (labels := [PyInt 3; PyInt 0]).
  set (enc := [("input_ids", [PyList [PyInt 101; PyInt 102]; PyList [PyInt 101; PyInt 102]])]).
  rewrite (training_reads_channels_and_saves_model sample_runtime sample_environ
             sample_argv sample_args ["--unknown"; "x"]
             "/opt/ml/input/data/train" "/opt/ml/input/data/test" "/opt/ml/model"
             sample_frame sample_frame texts texts labels labels enc enc);
    [split; vm_refl | vm_refl ..].
Defined.

(** ** The exported files are read back by the training script *)

Lemma calls_bind_lib {A B} (c : call) (answer : exn + A) (k : A -> Run B) :
  calls (lib c answer ≫= k)
  = c :: match answer with inl _ => [] | inr a => calls (k a) end.
Proof.
  unfold mbind, run_bind, bind, lib, calls. destruct answer as [e|a]; [reflexivity|].
  destruct (k a); reflexivity.
Qed.

(** C8, as the code has it. For every runtime and environment that names
    the training channel, [_get_tokenized_data] starts by reading
    [train_dataset.csv] in that channel's directory, and once this file is
    read and the test channel is named it reads [test_dataset.csv] in the
    test channel's directory; these are the two file names that the export
    cell writes. *)
Theorem tokenized_data_reads_exported_files
    (rt : runtime) (environ : gmap string string) (train_dir : string) :
  environ !! "SM_CHANNEL_TRAIN" = Some train_dir ->
  (exists rest,
     calls (Train._get_tokenized_data rt environ)
     = os_environ_getitem "SM_CHANNEL_TRAIN"
       :: pd_read_csv (os_path_join train_dir "train_dataset.csv") :: rest) /\
  (forall frame test_dir,
     rt_read_csv rt (os_path_join train_dir "train_dataset.csv") = inr frame ->
     environ !! "SM_CHANNEL_TEST" = Some test_dir ->
     exists rest,
       calls (Train._get_tokenized_data rt environ)
       = os_environ_getitem "SM_CHANNEL_TRAIN"
         :: pd_read_csv (os_path_join train_dir "train_dataset.csv")
         :: os_environ_getitem "SM_CHANNEL_TEST"
         :: pd_read_csv (os_path_join test_dir "test_dataset.csv") :: rest) /\
  (forall train_dataset test_dataset,
     length (DatasetExport.data train_dataset)
     <= length (DatasetExport.target train_dataset) ->
     dom (fst (DatasetExport.export_cell train_dataset test_dataset ∅))
     = ({["train_dataset.csv"; "test_dataset.csv"]} : gset string)).
Proof.
  intros Htrain. split; [|split].
  - unfold Train._get_tokenized_data, environ_getitem.
    rewrite Htrain, calls_bind_lib, calls_bind_lib. eauto.
  - intros frame test_dir Hread Htest.
    unfold Train._get_tokenized_data, environ_getitem.
    rewrite Htrain, calls_bind_lib, calls_bind_lib, Hread.
    rewrite Htest, calls_bind_lib, calls_bind_lib. eauto.
  - intros train_dataset test_dataset Hlen.
    rewrite (export_cell_files train_dataset test_dataset ∅ Hlen). cbn [fst].
    rewrite !dom_insert_L, dom_empty_L. set_solver.
Qed.

Lemma tokenized_data_reads_exported_files_witness :
  exists rest,
    calls (Train._get_tokenized_data sample_runtime sample_environ)
    = os_environ_getitem "SM_CHANNEL_TRAIN"
      :: pd_read_csv "/opt/ml/input/data/train/train_dataset.csv" :: rest.
Proof.
  exact (proj1 (tokenized_data_reads_exported_files sample_runtime sample_environ
                  "/opt/ml/input/data/train" eq_refl)).
Defined.

(** C8, as stated, fails: in a training container the run of
    [_get_tokenized_data] reads both exported files with [pd.read_csv]. *)
Lemma tokenized_data_consumes_the_export :
  In (pd_read_csv "/opt/ml/input/data/train/train_dataset.csv")
     (calls (Train._get_tokenized_data sample_runtime sample_environ)) /\
  In (pd_read_csv "/opt/ml/input/data/test/test_dataset.csv")
     (calls (Train._get_tokenized_data sample_runtime sample_environ)).
Proof. split; vm_compute; tauto. Qed.

(** ** Where the routines branch *)




(** *** The routines as call sequences *)

Section Follows.




Lemma follows_failed {A} (names : list string) (m : Run A) (e : exn) :
  m = ([], inl e) -> follows names m.
Proof.
  intros ->. split; [exists names; reflexivity | discriminate].
Qed.









End Follows.

(** *** The items of a [CustomDataset] *)

Section ItemLemmas.

Variable refuses : pyobj -> option exn.
Variable idx : nat.

Lemma torch_tensor_built (v t : pyobj) :
  Train.torch_tensor refuses v = inr t -> refuses v = None /\ t = v.
Proof.
  unfold Train.torch_tensor. destruct (refuses v); [discriminate|].
  intros [= <-]. split; reflexivity.
Qed.

Lemma dict_get_setitem (d : list (string * pyobj)) (key : string) (v : pyobj) :
  dict_get (Train.dict_setitem d key v) key = Some v.
Proof.
  induction d as [|[k w] rest IH]; cbn.
  - rewrite String.eqb_refl. reflexivity.
  - destruct (String.eqb k key) eqn:E; cbn; rewrite E; [reflexivity | exact IH].
Qed.

Lemma dict_get_setitem_other (d : list (string * pyobj)) (key other : string)
    (v : pyobj) :
  other <> key ->
  dict_get (Train.dict_setitem d key v) other = dict_get d other.
Proof.
  intros Hne. induction d as [|[k w] rest IH]; cbn.
  - destruct (String.eqb key other) eqn:E; [|reflexivity].
    apply String.eqb_eq in E. congruence.
  - destruct (String.eqb k key) eqn:E; cbn.
    + apply String.eqb_eq in E. subst k.
      destruct (String.eqb key other) eqn:E'; [|reflexivity].
      apply String.eqb_eq in E'. congruence.
    + rewrite IH. reflexivity.
Qed.

Lemma encodings_at_get (enc : encodings) (item : list (string * pyobj))
    (key : string) :
  Train.encodings_at refuses enc idx = inr item ->
  dict_get item key = dict_get enc key ≫= fun column => column !! idx.
Proof.
  revert item. induction enc as [|[k val] rest IH]; intros item H;
    cbn [Train.encodings_at] in H.
  - injection H as <-. reflexivity.
  - destruct (val !! idx) as [v|] eqn:Hv; [|discriminate].
    destruct (Train.torch_tensor refuses v) as [e|t] eqn:Ht; [discriminate|].
    apply torch_tensor_built in Ht as [_ ->].
    destruct (Train.encodings_at refuses rest idx) as [e|item'] eqn:Hr; [discriminate|].
    injection H as <-. cbn [dict_get].
    destruct (String.eqb k key); [cbn; rewrite Hv; reflexivity | apply IH; reflexivity].
Qed.

(** What an item holds, when [__getitem__] returns one. *)
Lemma getitem_holds (dataset : CustomDataset) (item : list (string * pyobj)) :
  Train.CustomDataset_getitem refuses dataset idx = inr item ->
  dict_get item "label" = ds_labels dataset !! idx /\
  (forall key,
     key <> "label" ->
     dict_get item key
     = dict_get (ds_encodings dataset) key ≫= fun column => column !! idx).
Proof.
  unfold Train.CustomDataset_getitem.
  destruct (Train.encodings_at refuses (ds_encodings dataset) idx) as [e|enc] eqn:He;
    [discriminate|].
  destruct (ds_labels dataset !! idx) as [l|]; [|discriminate].
  destruct (Train.torch_tensor refuses l) as [e|t] eqn:Ht; [discriminate|].
  apply torch_tensor_built in Ht as [_ ->].
  intros [= <-]. split.
  - apply dict_get_setitem.
  - intros key Hne. rewrite (dict_get_setitem_other _ _ _ _ Hne).
    apply encodings_at_get. exact He.
Qed.

End ItemLemmas.


(** ** train.py: the command line *)

Section ParserExamples.
Import Argparse.

Example py_int_examples :
  py_int "3" = Some 3%Z /\ py_int "-5" = Some (-5)%Z /\ py_int "+3" = Some 3%Z /\
  py_int " 7 " = Some 7%Z /\ py_int "1_000" = Some 1000%Z /\ py_int "007" = Some 7%Z /\
  py_int "abc" = None /\ py_int "" = None /\ py_int "1.5" = None /\
  py_int "1__0" = None /\ py_int "_1" = None /\ py_int "- 5" = None.
Proof. repeat split; reflexivity. Qed.

Example dest_of_examples :
  dest_of "--epochs" = "epochs" /\
  dest_of "--per-device-train-batch-size" = "per_device_train_batch_size".
Proof. split; reflexivity. Qed.

Let parse (argv : list string) :=
  glance (parse_known_args sample_float Train.script_parser argv).

Let defaults (extras : list string) :
    stop + (option pyobj * option pyobj * option pyobj * list string) :=
  inr (Some (PyInt 1), Some (PyFloat 0x1.47ae147ae147bp-7%float), Some (PyInt 100), extras).

Example parse_nothing : parse [] = defaults [].
Proof. vm_refl. Qed.

Example parse_unknown_flag : parse ["--foo"; "bar"] = defaults ["--foo"; "bar"].
Proof. vm_refl. Qed.

Example parse_after_double_dash :
  parse ["--"; "--epochs"; "3"] = defaults ["--"; "--epochs"; "3"].
Proof. vm_refl. Qed.

Example parse_epochs :
  parse ["x"; "--epochs"; "3"; "y"]
  = inr (Some (PyInt 3), Some (PyFloat 0x1.47ae147ae147bp-7%float), Some (PyInt 100),
         ["x"; "y"]).
Proof. vm_refl. Qed.

Example parse_prefix_of_a_flag :
  parse ["--epoch"; "4"] = parse ["--epochs"; "4"] /\
  parse ["--epochs=4"] = parse ["--epochs"; "4"].
Proof. split; vm_refl. Qed.

Example parse_negative_value :
  parse ["--epochs"; "-5"]
  = inr (Some (PyInt (-5)), Some (PyFloat 0x1.47ae147ae147bp-7%float), Some (PyInt 100), []).
Proof. vm_refl. Qed.

Example parse_floats :
  parse ["--logging-steps"; "0.5"; "--weight-decay"; "0.5"]
  = inr (Some (PyInt 1), Some (PyFloat 0.5%float), Some (PyFloat 0.5%float), []).
Proof. vm_refl. Qed.

Example parse_ill_typed :
  parse ["--epochs"; "abc"] = inl (UsageError (InvalidValue "--epochs" type_int "abc")) /\
  parse ["--weight-decay"; "abc"]
  = inl (UsageError (InvalidValue "--weight-decay" type_float "abc")).
Proof. split; vm_refl. Qed.

Example parse_missing_value :
  parse ["--epochs"] = inl (UsageError (ExpectedOneArgument "--epochs")) /\
  parse ["--epochs"; "--foo"; "3"] = inl (UsageError (ExpectedOneArgument "--epochs")) /\
  parse ["--epochs"; "--"; "3"] = inl (UsageError (ExpectedOneArgument "--epochs")).
Proof. repeat split; vm_refl. Qed.

Example parse_ambiguous_prefix :
  parse ["--per-device"; "3"]
  = inl (UsageError (AmbiguousOption "--per-device"
           ["--per-device-train-batch-size"; "--per-device-eval-batch-size"])).
Proof. vm_refl. Qed.

Example parse_help :
  parse ["-h"] = inl PrintHelp /\ parse ["--help"] = inl PrintHelp /\
  parse ["--epochs"; "3"; "--he"] = inl PrintHelp /\
  parse ["-hx"] = inl (UsageError (IgnoredExplicitArgument "-h" "x")).
Proof. repeat split; vm_refl. Qed.

End ParserExamples.

Section CommandLine.
Import Argparse.

Variable float_of_str : string -> option float.
Variable p : parser.

(** A string that does not start with a dash is an argument. *)
Lemma not_dash_is_argument (v : string) :
  String.prefix "-" v = false -> parse_optional p v = inr PA.
Proof.
  intros H. unfold parse_optional. rewrite H.
  destruct (String.eqb v ""); reflexivity.
Qed.

Lemma classify_cons (a : string) (c : pat) (rest : list string)
    (l : list (string * pat)) :
  String.eqb a "--" = false ->
  parse_optional p a = inr c ->
  classify p rest = inr l ->
  classify p (a :: rest) = inr ((a, c) :: l).
Proof.
  intros Ha Hc Hl. cbn [classify]. rewrite Ha, Hc, Hl. reflexivity.
Qed.

Lemma get_values_one (o : string) (t : arg_type) (v : string) (x : pyobj) :
  String.eqb v "--" = false ->
  get_value float_of_str t v = Some x ->
  get_values float_of_str o t [v] = inr x.
Proof.
  intros Hv Hx. unfold get_values. cbn [remove_first].
  rewrite String.eqb_sym, Hv, Hx. reflexivity.
Qed.

(** The parts of a well-formed command line classify one by one, and the
    consuming loop does to the namespace and to the extras what
    [part_step] says. *)
Lemma well_formed_parts :
  forall (parts : list part) (ns ns' : gmap string pyobj) (extras extras' : list string),
    parts_run float_of_str p parts ns extras = Some (ns', extras') ->
    exists l,
      classify p (render parts) = inr l /\
      consume float_of_str ns extras l = inr (ns', extras').
Proof.
  induction parts as [|x parts IH]; intros ns ns' extras extras' H.
  - cbn in H. injection H as <- <-. exists []. split; reflexivity.
  - cbn [parts_run] in H.
    destruct (part_step float_of_str p x ns) as [[ns1 more]|] eqn:Hstep; [|discriminate].
    destruct (IH _ _ _ _ H) as (l & Hl & Hc). clear IH H.
    destruct x as [o v|a|a]; cbn [part_step] in Hstep.
    + destruct (String.eqb o "--") eqn:Ho; [discriminate|].
      destruct (String.eqb v "--") eqn:Hv; [discriminate|]. cbn [orb] in Hstep.
      destruct (parse_optional p o) as [|[| |[[[|o1 dest t dflt]|] o2 [e|]]]] eqn:Po;
        try discriminate.
      destruct (parse_optional p v) as [|[| |]] eqn:Pv; try discriminate.
      destruct (get_value float_of_str t v) as [y|] eqn:Hy; [|discriminate].
      injection Hstep as <- <-.
      exists ((o, PO (OT (Some (StoreAction o1 dest t dflt)) o2 None)) :: (v, PA) :: l).
      split.
      * change (render (Flag o v :: parts)) with (o :: v :: render parts).
        apply classify_cons; [exact Ho | exact Po |].
        apply classify_cons; [exact Hv | exact Pv | exact Hl].
      * cbn [consume]. rewrite (get_values_one o2 t v y Hv Hy).
        rewrite app_nil_r in Hc. exact Hc.
    + destruct (String.eqb a "--") eqn:Ha; [discriminate|].
      destruct (parse_optional p a) as [|[| |[[[|o1 dest t dflt]|] o2 [e|]]]] eqn:Pa;
        try discriminate.
      destruct (String.eqb e "--") eqn:He; [discriminate|].
      destruct (get_value float_of_str t e) as [y|] eqn:Hy; [|discriminate].
      injection Hstep as <- <-.
      exists ((a, PO (OT (Some (StoreAction o1 dest t dflt)) o2 (Some e))) :: l).
      split.
      * change (render (Glued a :: parts)) with (a :: render parts).
        apply classify_cons; [exact Ha | exact Pa | exact Hl].
      * cbn [consume]. rewrite (get_values_one o2 t e y He Hy).
        rewrite app_nil_r in Hc. exact Hc.
    + destruct (String.eqb a "--") eqn:Ha; [discriminate|].
      destruct (parse_optional p a) as [|[| |[[act|] o2 e]]] eqn:Pa; try discriminate.
      * injection Hstep as <- <-. exists ((a, PA) :: l). split.
        -- change (render (Other a :: parts)) with (a :: render parts).
           apply classify_cons; [exact Ha | exact Pa | exact Hl].
        -- cbn [consume]. exact Hc.
      * injection Hstep as <- <-. exists ((a, PO (OT None o2 e)) :: l). split.
        -- change (render (Other a :: parts)) with (a :: render parts).
           apply classify_cons; [exact Ha | exact Pa | exact Hl].
        -- cbn [consume]. exact Hc.
Qed.

Lemma parse_well_formed (parts : list part) (args : gmap string pyobj)
    (extras : list string) :
  parts_run float_of_str p parts (add_defaults p ∅) [] = Some (args, extras) ->
  parse_known_args float_of_str p (render parts) = inr (args, extras).
Proof.
  intros H. destruct (well_formed_parts _ _ _ _ _ H) as (l & Hl & Hc).
  unfold parse_known_args. rewrite Hl. exact Hc.
Qed.

End CommandLine.

(** ** train.py: the command lines that the script takes *)

Section Strings.


















End Strings.

Section AcceptedParts.
Import Argparse CommandLines.

Variable float_of_str : string -> option float.
















End AcceptedParts.



Section MainBlock.
Import Argparse CommandLines.

Variable rt : runtime.
Variable environ : gmap string string.


End MainBlock.


(** * Further properties of the scripts *)

(** ** inference.py: when a request is answered *)

Section Requests.

Variable rt : runtime.
Variable inference_pipeline : pipeline.
Variables data content_type accept_type : string.

(** X1. [transform_fn] returns a text only for a request whose content type
    and accept type both contain "json" and whose payload went through
    [json.loads], the pipeline and [json.dumps] without an exception; the
    text is then the one [json.dumps] gave. In every other case the request
    ends in an exception. *)
Theorem transform_fn_answers_exactly_json_requests (s : string) :
  outcome (Inference.transform_fn rt inference_pipeline data content_type accept_type)
  = inr s
  <->
  str_contains "json" content_type = true /\
  str_contains "json" accept_type = true /\
  exists deser_data predictions,
    rt_json_loads rt data = inr deser_data /\
    rt_pipeline_call rt inference_pipeline deser_data = inr predictions /\
    rt_json_dumps rt predictions = inr s.
Proof.
  split.
  - destruct (str_contains "json" content_type) eqn:H.
    2:{ rewrite (transform_fn_content_refused _ _ _ _ _ H). discriminate. }
    destruct (rt_json_loads rt data) as [e|d] eqn:L.
    { rewrite (transform_fn_loads_fails _ _ _ _ _ e H L). discriminate. }
    destruct (rt_pipeline_call rt inference_pipeline d) as [e|q] eqn:P.
    { rewrite (transform_fn_pipeline_fails _ _ _ _ _ d e H L P). discriminate. }
    destruct (str_contains "json" accept_type) eqn:A.
    2:{ rewrite (transform_fn_accept_refused _ _ _ _ _ d q H A L P). discriminate. }
    rewrite (transform_fn_dumps _ _ _ _ _ d q H A L P). cbn [outcome snd].
    intros D. repeat split. exists d, q. repeat split; assumption.
  - intros (H & A & d & q & L & P & D).
    rewrite (transform_fn_dumps _ _ _ _ _ d q H A L P). exact D.
Qed.

(** X2. The test on the content type is a test for the text "json" anywhere
    in it: [json.loads] is the first call made exactly when the content
    type is some text, then "json", then some text. For any other content
    type the request is refused before any call: the trace is empty and the
    outcome is the [TypeError] of the refusal. *)
Theorem transform_fn_deserializes_iff_json_occurs :
  (hd_error
     (calls (Inference.transform_fn rt inference_pipeline data content_type accept_type))
   = Some (json_loads data)
   <-> exists before after, content_type = (before ++ "json" ++ after)%string) /\
  (~ (exists before after, content_type = (before ++ "json" ++ after)%string) ->
   Inference.transform_fn rt inference_pipeline data content_type accept_type
   = ([], inl (Exn TypeError "'NotImplementedType' object is not callable"))).
Proof.
  rewrite <- str_contains_spec. split; [split|].
  - destruct (str_contains "json" content_type) eqn:H; [reflexivity|].
    rewrite (transform_fn_content_refused _ _ _ _ _ H). discriminate.
  - intros H. unfold Inference.transform_fn. rewrite H, calls_bind_lib. reflexivity.
  - intros H. apply transform_fn_content_refused.
    destruct (str_contains "json" content_type); [contradiction H|]; reflexivity.
Qed.

End Requests.

Section Loading.

Variable rt : runtime.
Variable model_dir : string.


End Loading.


(** ** train.py: the environment variables *)

Section MissingChannel.

Variable rt : runtime.
Variable environ : gmap string string.
Variable args : gmap string pyobj.

(** X4. Without [SM_CHANNEL_TRAIN] in the environment, [train] ends in
    [KeyError('SM_CHANNEL_TRAIN')] at its first step: no file is read and no
    library is called. With [SM_CHANNEL_TRAIN] set and [SM_CHANNEL_TEST]
    missing, the training file is read first and the [KeyError] for the test
    channel follows. *)
Theorem train_needs_both_channels :
  (environ !! "SM_CHANNEL_TRAIN" = None ->
   Train.train rt environ args
   = ([os_environ_getitem "SM_CHANNEL_TRAIN"], inl (Exn KeyError "SM_CHANNEL_TRAIN"))) /\
  (forall train_dir frame,
     environ !! "SM_CHANNEL_TRAIN" = Some train_dir ->
     rt_read_csv rt (os_path_join train_dir "train_dataset.csv") = inr frame ->
     environ !! "SM_CHANNEL_TEST" = None ->
     Train.train rt environ args
     = ([os_environ_getitem "SM_CHANNEL_TRAIN";
         pd_read_csv (os_path_join train_dir "train_dataset.csv");
         os_environ_getitem "SM_CHANNEL_TEST"],
        inl (Exn KeyError "SM_CHANNEL_TEST"))).
Proof.
  split.
  - intros H. unfold Train.train, Train._get_tokenized_data, environ_getitem.
    rewrite H. reflexivity.
  - intros train_dir frame H R T.
    unfold Train.train, Train._get_tokenized_data, environ_getitem.
    rewrite H, T. unfold lib, mbind, run_bind, bind. rewrite R. reflexivity.
Qed.

End MissingChannel.

Lemma train_needs_both_channels_witness :
  Train.train sample_runtime ∅ sample_args
  = ([os_environ_getitem "SM_CHANNEL_TRAIN"], inl (Exn KeyError "SM_CHANNEL_TRAIN")).
Proof.
  exact (proj1 (train_needs_both_channels sample_runtime ∅ sample_args) eq_refl).
Defined.

Section NoModelDir.
Import Argparse.

Variable rt : runtime.
Variable environ : gmap string string.
Variable args : gmap string pyobj.
Variables train_dir test_dir : string.
Variables train_frame test_frame : dataframe.
Variables train_texts test_texts train_labels test_labels : list pyobj.
Variables train_encodings test_encodings : encodings.
Variables epochs train_batch eval_batch warmup decay logging : pyobj.

Let train_path := os_path_join train_dir "train_dataset.csv".
Let test_path := os_path_join test_dir "test_dataset.csv".
Let tok := Tokenizer "distilbert-base-uncased".
Let config := {| num_labels := 6 |}.
Let pretrained := Pretrained "distilbert-base-uncased" config.
Let train_enc_dataset :=
  {| ds_encodings := train_encodings; ds_labels := train_labels |}.
Let test_enc_dataset :=
  {| ds_encodings := test_encodings; ds_labels := test_labels |}.
Let training_args := {|
  output_dir := match environ !! "SM_OUTPUT_DIR" with Some v => v | None => "./" end;
  num_train_epochs := epochs;
  per_device_train_batch_size := train_batch;
  per_device_eval_batch_size := eval_batch;
  warmup_steps := warmup;
  weight_decay := decay;
  logging_steps := logging |}.

Hypothesis has_epochs : args !! "epochs" = Some epochs.
Hypothesis has_train_batch : args !! "per_device_train_batch_size" = Some train_batch.
Hypothesis has_eval_batch : args !! "per_device_eval_batch_size" = Some eval_batch.
Hypothesis has_warmup : args !! "warmup_steps" = Some warmup.
Hypothesis has_decay : args !! "weight_decay" = Some decay.
Hypothesis has_logging : args !! "logging_steps" = Some logging.
Hypothesis channel_train : environ !! "SM_CHANNEL_TRAIN" = Some train_dir.
Hypothesis channel_test : environ !! "SM_CHANNEL_TEST" = Some test_dir.
Hypothesis read_train : rt_read_csv rt train_path = inr train_frame.
Hypothesis read_test : rt_read_csv rt test_path = inr test_frame.
Hypothesis train_data : Train.df_getitem train_frame "data" = ret train_texts.
Hypothesis test_data : Train.df_getitem test_frame "data" = ret test_texts.
Hypothesis train_category : Train.df_getitem train_frame "category_id" = ret train_labels.
Hypothesis test_category : Train.df_getitem test_frame "category_id" = ret test_labels.
Hypothesis tokenizer_loads :
  rt_tokenizer_from_pretrained rt "distilbert-base-uncased" = None.
Hypothesis tokenize_train : rt_tokenize rt tok train_texts = inr train_encodings.
Hypothesis tokenize_test : rt_tokenize rt tok test_texts = inr test_encodings.
Hypothesis arguments_accepted : rt_training_arguments rt training_args = None.
Hypothesis model_loads :
  rt_model_from_pretrained rt "distilbert-base-uncased" config = None.
Hypothesis trainer_built :
  rt_trainer rt pretrained training_args train_enc_dataset test_enc_dataset = None.
Hypothesis training_succeeds :
  rt_trainer_train rt pretrained training_args train_enc_dataset test_enc_dataset = None.

(** The run of [train] up to the end of the training, which does not look
    at [SM_MODEL_DIR]. *)
Let training_calls : list call :=
  [os_environ_getitem "SM_CHANNEL_TRAIN"; pd_read_csv train_path;
   os_environ_getitem "SM_CHANNEL_TEST"; pd_read_csv test_path;
   tokenizer_from_pretrained "distilbert-base-uncased";
   tokenizer_call tok train_texts; tokenizer_call tok test_texts;
   os_getenv "SM_OUTPUT_DIR" "./";
   training_arguments_init training_args;
   model_from_pretrained "distilbert-base-uncased" config;
   trainer_init pretrained training_args train_enc_dataset test_enc_dataset;
   trainer_train pretrained training_args train_enc_dataset test_enc_dataset].

Lemma getattr_present (name : string) (v : pyobj) :
  args !! name = Some v -> Train.getattr args name = ret v.
Proof. intros H. unfold Train.getattr. rewrite H. reflexivity. Qed.

Lemma train_up_to_saving :
  Train.train rt environ args
  = (training_calls ++
     calls (environ_getitem environ "SM_MODEL_DIR" ≫= fun model_dir =>
            lib_obj (model_save_pretrained
                       (Trained pretrained training_args train_enc_dataset test_enc_dataset)
                       model_dir)
                    (rt_save_pretrained rt
                       (Trained pretrained training_args train_enc_dataset test_enc_dataset)
                       model_dir) tt),
     outcome (environ_getitem environ "SM_MODEL_DIR" ≫= fun model_dir =>
              lib_obj (model_save_pretrained
                         (Trained pretrained training_args train_enc_dataset test_enc_dataset)
                         model_dir)
                      (rt_save_pretrained rt
                         (Trained pretrained training_args train_enc_dataset test_enc_dataset)
                         model_dir) tt)).
Proof.
  unfold Train.train.
  rewrite (tokenized_data_run rt environ train_dir test_dir train_frame test_frame
             train_texts test_texts train_labels test_labels
             train_encodings test_encodings);
    try assumption.
  unfold mbind at 1. unfold run_bind, bind. cbn [fst snd].
  fold train_enc_dataset test_enc_dataset.
  unfold getenv. rewrite bind_lib.
  rewrite (getattr_present _ _ has_epochs), bind_ret.
  rewrite (getattr_present _ _ has_train_batch), bind_ret.
  rewrite (getattr_present _ _ has_eval_batch), bind_ret.
  rewrite (getattr_present _ _ has_warmup), bind_ret.
  rewrite (getattr_present _ _ has_decay), bind_ret.
  rewrite (getattr_present _ _ has_logging), bind_ret.
  fold training_args.
  rewrite arguments_accepted, bind_lib_obj.
  unfold Train.MODEL_NAME, Train.NUM_LABELS, set_num_labels. fold config.
  rewrite model_loads, bind_lib_obj. fold pretrained.
  rewrite trainer_built, bind_lib_obj.
  rewrite training_succeeds, bind_lib_obj.
  reflexivity.
Qed.

(** X5. The script looks up [SM_MODEL_DIR] only after the training has run.
    When everything up to the end of the training succeeds and
    [SM_MODEL_DIR] is not in the environment, the run carries out the whole
    training, then ends in [KeyError('SM_MODEL_DIR')], and no model has been
    saved. *)
Theorem train_without_model_dir_trains_then_fails :
  environ !! "SM_MODEL_DIR" = None ->
  Train.train rt environ args
  = (training_calls ++ [os_environ_getitem "SM_MODEL_DIR"],
     inl (Exn KeyError "SM_MODEL_DIR")) /\
  forall m path, ~ In (model_save_pretrained m path) (calls (Train.train rt environ args)).
Proof.
  intros H. rewrite train_up_to_saving. unfold environ_getitem. rewrite H.
  split; [reflexivity|]. intros m path. cbn.
  intuition discriminate.
Qed.

(** X6. A failure of [save_pretrained] itself comes after the training too
    and is what the script ends with. *)
Theorem train_save_failure_is_last (model_dir : string) (e : exn) :
  environ !! "SM_MODEL_DIR" = Some model_dir ->
  rt_save_pretrained rt
    (Trained pretrained training_args train_enc_dataset test_enc_dataset) model_dir
  = Some e ->
  Train.train rt environ args
  = (training_calls ++
     [os_environ_getitem "SM_MODEL_DIR";
      model_save_pretrained
        (Trained pretrained training_args train_enc_dataset test_enc_dataset) model_dir],
     inl e).
Proof.
  intros H S. rewrite train_up_to_saving. unfold environ_getitem.
  rewrite H, bind_lib. unfold lib_obj. rewrite S. reflexivity.
Qed.

End NoModelDir.

Lemma train_without_model_dir_trains_then_fails_witness :
  outcome (Train.train sample_runtime environ_without_model_dir sample_args)
  = inl (Exn KeyError "SM_MODEL_DIR").
Proof.
  rewrite (proj1 (train_without_model_dir_trains_then_fails
             sample_runtime environ_without_model_dir sample_args
             "/opt/ml/input/data/train" "/opt/ml/input/data/test"
             sample_frame sample_frame sample_texts sample_texts
             sample_labels sample_labels sample_encodings sample_encodings
             (PyInt 3) (PyInt 16) (PyInt 64) (PyInt 100) (PyFloat 0.5%float) (PyInt 100)
             ltac:(vm_refl) ltac:(vm_refl) ltac:(vm_refl) ltac:(vm_refl)
             ltac:(vm_refl) ltac:(vm_refl) ltac:(vm_refl) ltac:(vm_refl)
             ltac:(vm_refl) ltac:(vm_refl) ltac:(vm_refl) ltac:(vm_refl)
             ltac:(vm_refl) ltac:(vm_refl) ltac:(vm_refl) ltac:(vm_refl)
             ltac:(vm_refl) ltac:(vm_refl) ltac:(vm_refl) ltac:(vm_refl)
             ltac:(vm_refl) ltac:(vm_refl))).
  reflexivity.
Defined.

Lemma train_save_failure_is_last_witness :
  outcome (Train.train full_disk_runtime sample_environ sample_args)
  = inl (Exn (OtherError "OSError") "No space left on device").
Proof.
  rewrite (train_save_failure_is_last
             full_disk_runtime sample_environ sample_args
             "/opt/ml/input/data/train" "/opt/ml/input/data/test"
             sample_frame sample_frame sample_texts sample_texts
             sample_labels sample_labels sample_encodings sample_encodings
             (PyInt 3) (PyInt 16) (PyInt 64) (PyInt 100) (PyFloat 0.5%float) (PyInt 100)
             ltac:(vm_refl) ltac:(vm_refl) ltac:(vm_refl) ltac:(vm_refl)
             ltac:(vm_refl) ltac:(vm_refl) ltac:(vm_refl) ltac:(vm_refl)
             ltac:(vm_refl) ltac:(vm_refl) ltac:(vm_refl) ltac:(vm_refl)
             ltac:(vm_refl) ltac:(vm_refl) ltac:(vm_refl) ltac:(vm_refl)
             ltac:(vm_refl) ltac:(vm_refl) ltac:(vm_refl) ltac:(vm_refl)
             ltac:(vm_refl)
             "/opt/ml/model" (Exn (OtherError "OSError") "No space left on device")
             ltac:(vm_refl) ltac:(vm_refl)).
  reflexivity.
Defined.

(** ** train.py: what every parse leaves in the namespace *)

Section NamespaceShape.
Import Argparse.

Variable float_of_str : string -> option float.
Variable p : parser.

Lemma lookup_action_in (osa : list (string * action)) (s : string) (a : action) :
  lookup_action osa s = Some a -> In a (map snd osa).
Proof.
  induction osa as [|[o b] rest IH]; cbn; [discriminate|].
  destruct (String.eqb o s); [intros [= ->]; left; reflexivity | right; auto].
Qed.

Lemma option_string_actions_in (a : action) :
  In a (map snd (option_string_actions p)) -> In a p.
Proof.
  unfold option_string_actions. rewrite in_map_iff.
  intros [[o b] [<- Hin]]. apply in_flat_map in Hin as (c & Hc & Hin).
  apply in_map_iff in Hin as (o' & [= _ <-] & _). exact Hc.
Qed.

Lemma get_option_tuples_in (arg : string) (a : action) (o : string)
    (e : option string) :
  In (OT (Some a) o e) (get_option_tuples p arg) -> In a p.
Proof.
  unfold get_option_tuples. intros H. apply option_string_actions_in.
  destruct (second_is_dash arg).
  - destruct (match split_eq_str arg with
              | Some (b, a0) => (b, Some a0)
              | None => (arg, None)
              end) as [pre ex].
    apply in_flat_map in H as ([o' b] & Hb & H). cbn [fst snd] in H.
    destruct (String.prefix pre o'); [|contradiction].
    destruct H as [[= <- _ _]|[]]. apply in_map_iff. exists (o', b). split; auto.
  - apply in_flat_map in H as ([o' b] & Hb & H). cbn [fst snd] in H.
    destruct (String.eqb o' _).
    + destruct H as [[= <- _ _]|[]]. apply in_map_iff. exists (o', b). split; auto.
    + destruct (String.prefix arg o'); [|contradiction].
      destruct H as [[= <- _ _]|[]]. apply in_map_iff. exists (o', b). split; auto.
Qed.

(** An action that [_parse_optional] finds is an action of the parser. *)
Lemma parse_optional_in (arg : string) (a : action) (o : string)
    (e : option string) :
  parse_optional p arg = inr (PO (OT (Some a) o e)) -> In a p.
Proof.
  unfold parse_optional.
  destruct (String.eqb arg ""); [discriminate|].
  destruct (negb (String.prefix "-" arg)); [discriminate|].
  destruct (lookup_action (option_string_actions p) arg) as [b|] eqn:L.
  { intros [= <- _ _]. apply option_string_actions_in.
    exact (lookup_action_in _ _ _ L). }
  destruct (String.length arg =? 1)%nat; [discriminate|].
  destruct (split_eq_str arg) as [[o' e']|].
  - destruct (lookup_action (option_string_actions p) o') as [b|] eqn:L'.
    { intros [= <- _ _]. apply option_string_actions_in.
      exact (lookup_action_in _ _ _ L'). }
    destruct (get_option_tuples p arg) as [|t [|t' ts]] eqn:G.
    + destruct (negative_number_like arg); [discriminate|].
      destruct (str_contains " " arg); discriminate.
    + intros [= ->]. apply (get_option_tuples_in arg a o e). rewrite G. left; reflexivity.
    + discriminate.
  - destruct (get_option_tuples p arg) as [|t [|t' ts]] eqn:G.
    + destruct (negative_number_like arg); [discriminate|].
      destruct (str_contains " " arg); discriminate.
    + intros [= ->]. apply (get_option_tuples_in arg a o e). rewrite G. left; reflexivity.
    + discriminate.
Qed.

Lemma classify_from_parser :
  forall (args : list string) (l : list (string * pat)),
    classify p args = inr l -> Forall (from_parser p) l.
Proof.
  induction args as [|a rest IH]; intros l H; cbn [classify] in H.
  - injection H as <-. constructor.
  - destruct (String.eqb a "--").
    + injection H as <-. constructor; [exact I|].
      clear. induction rest; constructor; [exact I | assumption].
    + destruct (parse_optional p a) as [|c] eqn:Pa; [discriminate|].
      destruct (classify p rest) as [|l'] eqn:Cl; [discriminate|].
      injection H as <-. constructor; [|apply IH; reflexivity].
      unfold from_parser. cbn [snd]. destruct c as [| |[[b|] o e]]; try exact I.
      exact (parse_optional_in _ _ _ _ Pa).
Qed.

(** Consuming arguments adds no attribute but the destinations of the
    parser's storing options. *)
Lemma consume_adds_dests (k : string) :
  forall (n : nat) (l : list (string * pat)) (ns ns' : gmap string pyobj)
         (extras extras' : list string),
    length l <= n ->
    Forall (from_parser p) l ->
    consume float_of_str ns extras l = inr (ns', extras') ->
    is_Some (ns' !! k) ->
    is_Some (ns !! k) \/ exists o t d, In (StoreAction o k t d) p.
Proof.
  induction n as [|n IH]; intros l ns ns' extras extras' Hn Hf H Hk.
  - destruct l; [|cbn in Hn; lia]. cbn in H. injection H as <- <-. left; exact Hk.
  - destruct l as [|[s c] r]; [cbn in H; injection H as <- <-; left; exact Hk|].
    cbn [length] in Hn. apply Forall_cons in Hf as [Hs Hr].
    destruct c as [| |[[[|o' dest t dflt]|] o [e|]]]; cbn [consume] in H;
      try discriminate;
      try (eapply IH; [| exact Hr | exact H | exact Hk]; lia).
    + destruct (second_is_dash o); [discriminate|].
      destruct (chars e); discriminate.
    + destruct (get_values float_of_str o t [e]) as [rf|v]; [discriminate|].
      destruct (IH r _ _ _ _ ltac:(lia) Hr H Hk) as [Hin|Hin]; [|right; exact Hin].
      destruct (decide (dest = k)) as [<-|ne].
      * right. exists o', t, dflt. exact Hs.
      * left. rewrite lookup_insert_ne in Hin by exact ne. exact Hin.
    + destruct r as [|[v [| |u]] r']; try discriminate.
      destruct (get_values float_of_str o t [v]) as [rf|x]; [discriminate|].
      apply Forall_cons in Hr as [_ Hr'].
      destruct (IH r' _ _ _ _ ltac:(cbn [length] in Hn; lia) Hr' H Hk) as [Hin|Hin];
        [|right; exact Hin].
      destruct (decide (dest = k)) as [<-|ne].
      * right. exists o', t, dflt. exact Hs.
      * left. rewrite lookup_insert_ne in Hin by exact ne. exact Hin.
Qed.

End NamespaceShape.

(** X7. Whatever the command line, a parse that succeeds leaves in the
    namespace the six hyperparameters of the script and nothing else, so
    that every attribute that [train] reads is there. *)
Theorem parsed_namespace_has_the_six_hyperparameters
    (float_of_str : string -> option float) (argv : list string)
    (args : gmap string pyobj) (extras : list string) (name : string) :
  Argparse.parse_known_args float_of_str Train.script_parser argv = inr (args, extras) ->
  is_Some (args !! name)
  <-> In name ["epochs"; "per_device_train_batch_size"; "per_device_eval_batch_size";
               "warmup_steps"; "logging_steps"; "weight_decay"].
Proof.
  intros H. unfold Argparse.parse_known_args in H.
  destruct (Argparse.classify Train.script_parser argv) as [r|l] eqn:Cl; [discriminate|].
  split.
  - intros Hk.
    destruct (consume_adds_dests float_of_str Train.script_parser name (length l)
                l _ _ _ _ ltac:(reflexivity)
                (classify_from_parser _ _ _ Cl) H Hk) as [Hd|(o & t & d & Hin)].
    + assert (E : Argparse.add_defaults Train.script_parser ∅
                  = <["epochs" := PyInt 1]>
                    (<["per_device_train_batch_size" := PyInt 16]>
                    (<["per_device_eval_batch_size" := PyInt 64]>
                    (<["warmup_steps" := PyInt 100]>
                    (<["logging_steps" := PyInt 100]>
                    (<["weight_decay" := PyFloat 0x1.47ae147ae147bp-7%float]> ∅))))))
        by vm_refl.
      rewrite E in Hd. apply elem_of_dom in Hd.
      rewrite !dom_insert_L, dom_empty_L in Hd. set_unfold in Hd. cbn.
      intuition congruence.
    + vm_compute in Hin.
      repeat (destruct Hin as [Hin|Hin];
              [try discriminate Hin; injection Hin as _ <- _ _; cbn; tauto|]).
      contradiction.
  - intros Hin.
    eapply (consume_keeps float_of_str name (length l)); [reflexivity | exact H |].
    cbn in Hin.
    repeat (destruct Hin as [<-|Hin]; [vm_compute; eauto|]). contradiction.
Qed.

Lemma parsed_namespace_has_the_six_hyperparameters_witness :
  is_Some (sample_args !! "warmup_steps").
Proof.
  apply (proj2 (parsed_namespace_has_the_six_hyperparameters
                  sample_float sample_argv sample_args ["--unknown"; "x"]
                  "warmup_steps" ltac:(vm_refl))).
  cbn. tauto.
Defined.

(** ** train.py: arguments that are not flags *)

Section Extras.
Import Argparse.

Variable float_of_str : string -> option float.
Variable p : parser.

Lemma consume_set_aside :
  forall (l : list (string * pat)) (ns : gmap string pyobj) (extras : list string),
    Forall set_aside l ->
    consume float_of_str ns extras l = inr (ns, extras ++ map fst l).
Proof.
  induction l as [|[s c] r IH]; intros ns extras Hf.
  - cbn. rewrite app_nil_r. reflexivity.
  - apply Forall_cons in Hf as [[Hs|Hs] Hr]; cbn [snd] in Hs; subst c;
      cbn [consume map fst]; rewrite (IH _ _ Hr), <- app_assoc; reflexivity.
Qed.

(** Arguments set aside after a command line that parses do not change what
    it parses to. *)
Lemma consume_app :
  forall (n : nat) (l l' : list (string * pat)) (ns ns' : gmap string pyobj)
         (extras extras' : list string),
    length l <= n ->
    consume float_of_str ns extras l = inr (ns', extras') ->
    Forall set_aside l' ->
    consume float_of_str ns extras (l ++ l') = inr (ns', extras' ++ map fst l').
Proof.
  induction n as [|n IH]; intros l l' ns ns' extras extras' Hn H Hf.
  - destruct l; [|cbn in Hn; lia]. cbn in H. injection H as <- <-.
    cbn [app]. apply consume_set_aside. exact Hf.
  - destruct l as [|[s c] r].
    { cbn in H. injection H as <- <-. cbn [app]. apply consume_set_aside. exact Hf. }
    cbn [length] in Hn. cbn [app].
    destruct c as [| |[[[|o' dest t dflt]|] o [e|]]]; cbn [consume] in H |- *;
      try discriminate;
      try (apply IH; [lia | exact H | exact Hf]).
    + destruct (second_is_dash o); [discriminate|].
      destruct (chars e); discriminate.
    + destruct (get_values float_of_str o t [e]) as [rf|v]; [discriminate|].
      apply IH; [lia | exact H | exact Hf].
    + destruct r as [|[v [| |u]] r']; try discriminate. cbn [app].
      destruct (get_values float_of_str o t [v]) as [rf|x]; [discriminate|].
      apply IH; [cbn [length] in Hn; lia | exact H | exact Hf].
Qed.

Lemma classify_then_double_dash :
  forall (before rest : list string) (l : list (string * pat)),
    classify p before = inr l ->
    exists l',
      classify p (before ++ "--" :: rest) = inr (l ++ l') /\
      Forall set_aside l' /\ map fst l' = "--" :: rest.
Proof.
  assert (Hmap : forall xs : list string,
            Forall set_aside (map (fun s => (s, PA)) xs) /\
            map fst (map (fun s => (s, PA)) xs) = xs).
  { induction xs as [|x xs [IH1 IH2]]; cbn; split;
      [constructor | reflexivity | constructor; [left; reflexivity | exact IH1]
      | f_equal; exact IH2]. }
  induction before as [|a before IH]; intros rest l H.
  - cbn in H. injection H as <-. cbn [app classify]. rewrite String.eqb_refl.
    exists (("--", PDash) :: map (fun s => (s, PA)) rest).
    destruct (Hmap rest) as [H1 H2].
    split; [reflexivity|]. split; [constructor; [right; reflexivity | exact H1]|].
    cbn. f_equal. exact H2.
  - cbn [app classify] in H |- *. destruct (String.eqb a "--") eqn:Ha.
    + injection H as <-.
      exists (map (fun s => (s, PA)) ("--" :: rest)).
      split; [rewrite map_app; reflexivity|]. exact (Hmap ("--" :: rest)).
    + destruct (parse_optional p a) as [|c]; [discriminate|].
      destruct (classify p before) as [|l0] eqn:Cl; [discriminate|].
      injection H as <-.
      destruct (IH rest l0 eq_refl) as (l' & -> & Hf & Hm).
      exists l'. split; [reflexivity|]. split; assumption.
Qed.

(** X8. What follows a bare [--] is never read as a flag: if a command line
    parses, then the same command line followed by [--] and any further
    arguments parses to the same namespace, and [--] and the further
    arguments join the extras. A hyperparameter written after [--] is lost
    without a message. *)
Theorem arguments_after_double_dash_are_extras
    (before rest : list string) (args : gmap string pyobj) (extras : list string) :
  parse_known_args float_of_str p before = inr (args, extras) ->
  parse_known_args float_of_str p (before ++ "--" :: rest)
  = inr (args, extras ++ "--" :: rest).
Proof.
  unfold parse_known_args. intros H.
  destruct (classify p before) as [r|l] eqn:Cl; [discriminate|].
  destruct (classify_then_double_dash before rest l Cl) as (l' & -> & Hf & Hm).
  rewrite (consume_app (length l) l l' _ _ _ _ ltac:(reflexivity) H Hf), Hm.
  reflexivity.
Qed.

(** X9. Arguments that do not start with a dash are never an error and
    never a hyperparameter: a command line made of such arguments parses to
    the defaults, with every argument among the extras, in order. *)
Theorem plain_arguments_are_extras (argv : list string) :
  Forall (fun a => String.prefix "-" a = false) argv ->
  parse_known_args float_of_str p argv = inr (add_defaults p ∅, argv).
Proof.
  intros H. unfold parse_known_args.
  assert (Cl : classify p argv = inr (map (fun s => (s, PA)) argv)).
  { induction H as [|a rest Ha Hrest IH]; [reflexivity|].
    cbn [classify map]. rewrite IH, (not_dash_is_argument p a Ha).
    destruct (String.eqb a "--") eqn:E; [|reflexivity].
    apply String.eqb_eq in E. subst a. discriminate Ha. }
  rewrite Cl, consume_set_aside.
  - cbn [app]. f_equal. f_equal. clear. induction argv; cbn; congruence.
  - clear. induction argv; constructor; [left; reflexivity | assumption].
Qed.

End Extras.

Lemma arguments_after_double_dash_are_extras_witness :
  Argparse.parse_known_args sample_float Train.script_parser
    (sample_argv ++ ["--"; "--epochs"; "9"])
  = inr (sample_args, ["--unknown"; "x"; "--"; "--epochs"; "9"]).
Proof.
  exact (arguments_after_double_dash_are_extras sample_float Train.script_parser
           sample_argv ["--epochs"; "9"] sample_args ["--unknown"; "x"]
           ltac:(vm_refl)).
Defined.

Lemma plain_arguments_are_extras_witness :
  Argparse.parse_known_args sample_float Train.script_parser ["train"; "now"]
  = inr (Argparse.add_defaults Train.script_parser ∅, ["train"; "now"]).
Proof.
  apply (plain_arguments_are_extras sample_float Train.script_parser ["train"; "now"]).
  repeat constructor.
Defined.

(** ** train.py: hyperparameters given as pairs *)

Section Pairs.
Import Argparse Hyperparameters.

Variable float_of_str : string -> option float.

Lemma script_flag (o dest : string) (t : arg_type) (d : pyobj) :
  In (StoreAction o dest t d) Train.script_parser ->
  String.eqb o "--" = false /\
  parse_optional Train.script_parser o
  = inr (PO (OT (Some (StoreAction o dest t d)) o None)) /\
  lookup_action (option_string_actions Train.script_parser) o
  = Some (StoreAction o dest t d).
Proof.
  intros H. vm_compute in H.
  repeat (destruct H as [H|H];
          [try discriminate H; injection H as <- <- <- <-; repeat split; vm_refl|]).
  contradiction.
Qed.

Lemma pairs_run :
  forall (pairs : list (string * string)) (ns : gmap string pyobj),
    Forall (well_typed float_of_str Train.script_parser) pairs ->
    parts_run float_of_str Train.script_parser
              (map (fun kv => Flag (fst kv) (snd kv)) pairs) ns []
    = Some (fold_left (assign float_of_str Train.script_parser) pairs ns, []).
Proof.
  induction pairs as [|[o v] pairs IH]; intros ns Hf; [reflexivity|].
  apply Forall_cons in Hf as [(dest & t & d & Hin & Hv & [x Hx]) Hrest].
  cbn [fst snd] in Hin, Hv, Hx.
  destruct (script_flag o dest t d Hin) as (Ho & Hp & Hl).
  cbn [map parts_run part_step fold_left fst snd].
  rewrite Ho, Hp, (not_dash_is_argument Train.script_parser v Hv), Hx.
  assert (Hvd : String.eqb v "--" = false).
  { destruct (String.eqb v "--") eqn:E; [|reflexivity].
    apply String.eqb_eq in E. subst v. discriminate Hv. }
  rewrite Hvd. cbn [orb app].
  unfold assign at 2. cbn [fst snd]. rewrite Hl, Hx. apply IH. exact Hrest.
Qed.

(** X10. A command line made of [--name value] pairs, where every name is a
    flag of the script and every value is free of a leading dash and
    accepted by the type of its flag, always parses: each value is stored
    under its hyperparameter, a later pair for the same flag replaces an
    earlier one, hyperparameters without a pair keep their defaults, and
    nothing is left among the extras. *)
Theorem hyperparameter_pairs_parse (pairs : list (string * string)) :
  Forall (well_typed float_of_str Train.script_parser) pairs ->
  parse_known_args float_of_str Train.script_parser (flags_of pairs)
  = inr (fold_left (assign float_of_str Train.script_parser) pairs
           (add_defaults Train.script_parser ∅),
         []).
Proof.
  intros Hf.
  replace (flags_of pairs) with (render (map (fun kv => Flag (fst kv) (snd kv)) pairs)).
  - apply parse_well_formed. apply pairs_run. exact Hf.
  - unfold render, flags_of. clear. induction pairs as [|[o v] pairs IH]; cbn; congruence.
Qed.

End Pairs.

Lemma hyperparameter_pairs_parse_witness :
  match Argparse.parse_known_args sample_float Train.script_parser
          ["--epochs"; "3"; "--weight-decay"; "0.5"; "--epochs"; "4"] with
  | inr (args, extras) => args !! "epochs" = Some (PyInt 4) /\ extras = []
  | inl _ => False
  end.
Proof.
  change ["--epochs"; "3"; "--weight-decay"; "0.5"; "--epochs"; "4"]
    with (Hyperparameters.flags_of
            [("--epochs", "3"); ("--weight-decay", "0.5"); ("--epochs", "4")]).
  rewrite (hyperparameter_pairs_parse sample_float
             [("--epochs", "3"); ("--weight-decay", "0.5"); ("--epochs", "4")]).
  - split; vm_refl.
  - repeat constructor.
    + exists "epochs", Argparse.type_int, (PyInt 1).
      repeat split; [vm_compute; tauto | eexists; reflexivity].
    + exists "weight_decay", Argparse.type_float, (PyFloat 0x1.47ae147ae147bp-7%float).
      repeat split; [vm_compute; tauto | eexists; reflexivity].
    + exists "epochs", Argparse.type_int, (PyInt 1).
      repeat split; [vm_compute; tauto | eexists; reflexivity].
Defined.

(** ** train.py: the help option *)

Section Help.
Import Argparse.

Variable float_of_str : string -> option float.

(** The pattern of a command line around one of its arguments that is not
    behind a [--]. *)
Lemma classify_around (p : parser) (h : string) (c : pat) :
  String.eqb h "--" = false ->
  parse_optional p h = inr c ->
  forall (before after : list string),
    ~ In "--" before ->
    classify p (before ++ h :: after)
    = match classify p before with
      | inl r => inl r
      | inr lb =>
          match classify p after with
          | inl r => inl r
          | inr la => inr (lb ++ (h, c) :: la)
          end
      end.
Proof.
  intros Hd Hh. induction before as [|a before IH]; intros after Hb.
  - cbn [app classify]. rewrite Hd, Hh. reflexivity.
  - cbn [app classify].
    destruct (String.eqb a "--") eqn:Ha.
    { apply String.eqb_eq in Ha. subst a. exfalso. apply Hb. left; reflexivity. }
    destruct (parse_optional p a) as [r|c']; [reflexivity|].
    rewrite IH by (intros Hin; apply Hb; right; exact Hin).
    destruct (classify p before) as [r|lb]; [reflexivity|].
    destruct (classify p after) as [r|la]; reflexivity.
Qed.

(** The consuming loop, when it gets to a help option, prints the help. *)
Lemma consume_then_help (s o : string) (rest : list (string * pat)) :
  forall (n : nat) (l : list (string * pat)) (ns ns' : gmap string pyobj)
         (extras extras' : list string),
    length l <= n ->
    consume float_of_str ns extras l = inr (ns', extras') ->
    consume float_of_str ns extras (l ++ (s, PO (OT (Some HelpAction) o None)) :: rest)
    = inl PrintHelp.
Proof.
  induction n as [|n IH]; intros l ns ns' extras extras' Hn H.
  - destruct l; [reflexivity | cbn in Hn; lia].
  - destruct l as [|[s' c] r]; [reflexivity|]. cbn [length] in Hn. cbn [app].
    destruct c as [| |[[[|o' dest t dflt]|] o2 [e2|]]]; cbn [consume] in H |- *;
      try discriminate;
      try (eapply IH; [| exact H]; lia).
    + destruct (second_is_dash o2); [discriminate|].
      destruct (chars e2); discriminate.
    + destruct (get_values float_of_str o2 t [e2]) as [rf|v]; [discriminate|].
      eapply IH; [| exact H]; lia.
    + destruct r as [|[v [| |u]] r']; try discriminate. cbn [app].
      destruct (get_values float_of_str o2 t [v]) as [rf|x]; [discriminate|].
      eapply IH; [| exact H]; cbn [length] in Hn; lia.
Qed.

(** A help that was printed stays printed, whatever follows. *)
Lemma consume_help_app (l' : list (string * pat)) :
  forall (n : nat) (l : list (string * pat)) (ns : gmap string pyobj)
         (extras : list string),
    length l <= n ->
    consume float_of_str ns extras l = inl PrintHelp ->
    consume float_of_str ns extras (l ++ l') = inl PrintHelp.
Proof.
  induction n as [|n IH]; intros l ns extras Hn H.
  - destruct l; [discriminate H | cbn in Hn; lia].
  - destruct l as [|[s' c] r]; [discriminate H|]. cbn [length] in Hn. cbn [app].
    destruct c as [| |[[[|o' dest t dflt]|] o2 [e2|]]]; cbn [consume] in H |- *;
      try exact H;
      try (apply IH; [lia | exact H]).
    + destruct (get_values float_of_str o2 t [e2]) as [rf|v]; [discriminate|].
      apply IH; [lia | exact H].
    + destruct r as [|[v [| |u]] r']; try discriminate. cbn [app].
      destruct (get_values float_of_str o2 t [v]) as [rf|x]; [discriminate|].
      apply IH; [cbn [length] in Hn; lia | exact H].
Qed.

(** A usage error is not undone by an option that follows. *)
Lemma consume_error_then_option (s : string) (t0 : option_tuple)
    (rest : list (string * pat)) (rf0 : refusal) :
  forall (n : nat) (l : list (string * pat)) (ns : gmap string pyobj)
         (extras : list string),
    length l <= n ->
    consume float_of_str ns extras l = inl (UsageError rf0) ->
    consume float_of_str ns extras (l ++ (s, PO t0) :: rest) = inl (UsageError rf0).
Proof.
  induction n as [|n IH]; intros l ns extras Hn H.
  - destruct l; [discriminate H | cbn in Hn; lia].
  - destruct l as [|[s' c] r]; [discriminate H|]. cbn [length] in Hn. cbn [app].
    destruct c as [| |[[[|o' dest t dflt]|] o2 [e2|]]]; cbn [consume] in H |- *;
      try exact H;
      try (apply IH; [lia | exact H]).
    + destruct (get_values float_of_str o2 t [e2]) as [rf|v]; [exact H|].
      apply IH; [lia | exact H].
    + destruct r as [|[v [| |u]] r']; try exact H. cbn [app].
      destruct (get_values float_of_str o2 t [v]) as [rf|x]; [exact H|].
      apply IH; [cbn [length] in Hn; lia | exact H].
Qed.

End Help.

Section HelpOption.
Import Argparse.

Variable rt : runtime.
Variable environ : gmap string string.

(** X11. A command line that has [-h] or [--help] before any [--] never
    starts a training: the script ends in [SystemExit] without a single
    call to a library. The status is 0, the help having been printed, when
    the arguments before the help option are no usage error on their own
    and the parser's first pass over the arguments after it refuses none
    (as it does an ambiguous abbreviation); the status is 2 when the
    arguments before it are a usage error on their own, or the first pass
    refuses one after it. *)
Theorem help_never_trains (h : string) (before after : list string) :
  h = "-h" \/ h = "--help" ->
  ~ In "--" before ->
  (exists status,
     (status = "0" \/ status = "2") /\
     Train.main_block rt environ (before ++ h :: after)
     = ([], inl (Exn SystemExit status))) /\
  ((forall r, parse_known_args (rt_float rt) Train.script_parser before
              <> inl (UsageError r)) ->
   (forall r, classify Train.script_parser after <> inl r) ->
   Train.main_block rt environ (before ++ h :: after)
   = ([], inl (Exn SystemExit "0"))) /\
  ((exists r, parse_known_args (rt_float rt) Train.script_parser before
              = inl (UsageError r)) \/
   (exists r, classify Train.script_parser after = inl r) ->
   Train.main_block rt environ (before ++ h :: after)
   = ([], inl (Exn SystemExit "2"))).
Proof.
  intros Hh Hb.
  assert (Hd : String.eqb h "--" = false) by (destruct Hh as [->| ->]; reflexivity).
  assert (Hp : parse_optional Train.script_parser h
               = inr (PO (OT (Some HelpAction) h None)))
    by (destruct Hh as [->| ->]; vm_refl).
  unfold Train.main_block, parse_known_args.
  rewrite (classify_around Train.script_parser h _ Hd Hp before after Hb).
  destruct (classify Train.script_parser before) as [r|lb].
  { split; [eauto|]. split; [intros H; destruct (H r eq_refl) | reflexivity]. }
  destruct (classify Train.script_parser after) as [r|la].
  { split; [eauto|]. split; [intros _ H; destruct (H r eq_refl) | reflexivity]. }
  destruct (consume (rt_float rt) (add_defaults Train.script_parser ∅) [] lb)
    as [[|r]|[ns extras]] eqn:Hc.
  - rewrite (consume_help_app (rt_float rt) _ (length lb) lb _ _ ltac:(reflexivity) Hc).
    split; [eauto|]. split; [reflexivity|].
    intros [[r H]|[r H]]; discriminate H.
  - rewrite (consume_error_then_option (rt_float rt) h _ la r (length lb) lb _ _
               ltac:(reflexivity) Hc).
    split; [eauto|]. split; [intros H; destruct (H r eq_refl) | reflexivity].
  - rewrite (consume_then_help (rt_float rt) h h la (length lb) lb _ _ _ _
               ltac:(reflexivity) Hc).
    split; [eauto|]. split; [reflexivity|].
    intros [[r H]|[r H]]; discriminate H.
Qed.

End HelpOption.

Lemma help_never_trains_witness :
  Train.main_block sample_runtime sample_environ ["--epochs"; "3"; "--help"; "-x"]
  = ([], inl (Exn SystemExit "0")) /\
  Train.main_block sample_runtime sample_environ ["--epochs"; "-h"]
  = ([], inl (Exn SystemExit "2")).
Proof.
  split.
  - apply (proj1 (proj2 (help_never_trains sample_runtime sample_environ "--help"
                           ["--epochs"; "3"] ["-x"] (or_intror eq_refl)
                           ltac:(cbn; intuition discriminate)))).
    + intros r H. vm_compute in H. discriminate H.
    + intros r H. vm_compute in H. discriminate H.
  - apply (proj2 (proj2 (help_never_trains sample_runtime sample_environ "-h"
                           ["--epochs"] [] (or_introl eq_refl)
                           ltac:(cbn; intuition discriminate)))).
    left. exists (Argparse.ExpectedOneArgument "--epochs"). vm_refl.
Defined.

(** ** The dataset export cell: the files it leaves *)

Section ExportedFiles.
Import DatasetExport.

Variables train_dataset test_dataset : Bunch.
Variable fs : filesystem.

Lemma expected_rows_lookup (d : Bunch) (i : nat) (text : string) (c : Z) :
  data d !! i = Some text ->
  target d !! i = Some c ->
  expected_rows d !! i = Some [text; str_of_int c].
Proof.
  unfold expected_rows. generalize (data d) (target d). clear.
  intros xs; revert i. induction xs as [|x xs IH]; intros i ys Hx Hy; [destruct i; discriminate|].
  destruct ys as [|y ys]; [destruct i; discriminate|].
  destruct i as [|i]; cbn in *.
  - injection Hx as ->. injection Hy as ->. reflexivity.
  - apply IH; assumption.
Qed.

Lemma expected_rows_length (d : Bunch) :
  length (data d) <= length (target d) ->
  length (expected_rows d) = length (data d).
Proof.
  unfold expected_rows. rewrite length_zip_with. lia.
Qed.

(** X12. When every text has a category id, the cell ends normally and
    [train_dataset.csv] holds the header and then one row per training
    sample, in the order of the samples: the text, and the category id in
    decimal. *)
Theorem export_cell_writes_one_row_per_training_sample :
  length (data train_dataset) <= length (target train_dataset) ->
  let run := export_cell train_dataset test_dataset fs in
  snd run = inr tt /\
  (exists rows, fst run !! "train_dataset.csv" = Some (["data"; "category_id"] :: rows)) /\
  length (data_rows (fst run) "train_dataset.csv") = length (data train_dataset) /\
  (forall i text,
     data train_dataset !! i = Some text ->
     exists c,
       target train_dataset !! i = Some c /\
       data_rows (fst run) "train_dataset.csv" !! i = Some [text; str_of_int c]).
Proof.
  intros Hlen. cbv zeta.
  rewrite (export_cell_files train_dataset test_dataset fs Hlen). cbn [fst snd].
  assert (Hrows : forall (m : filesystem) (a r : list csv_record),
            data_rows (<["test_dataset.csv" := a]>
                         (<["train_dataset.csv" := header :: r]> m))
                      "train_dataset.csv" = r).
  { intros m a r. unfold data_rows.
    rewrite lookup_insert_ne by discriminate. rewrite lookup_insert_eq. reflexivity. }
  rewrite !Hrows. rewrite lookup_insert_ne by discriminate.
  rewrite lookup_insert_eq. unfold header.
  split; [reflexivity|]. split; [eauto|].
  split; [apply expected_rows_length; exact Hlen|].
  intros i text Hx.
  destruct (lookup_lt_is_Some_2 (target train_dataset) i) as [c Hc].
  { apply lookup_lt_Some in Hx. lia. }
  exists c. split; [exact Hc|]. apply expected_rows_lookup; assumption.
Qed.

Lemma for_each_cons_err {A} (x : A) (xs : list A) (body : A -> IO unit)
    (fs0 fs' : filesystem) (e : exn) :
  body x fs0 = (fs', inl e) ->
  for_each (x :: xs) body fs0 = (fs', inl e).
Proof.
  intros H. cbn [for_each]. unfold mbind, io_mbind, io_bind. rewrite H. reflexivity.
Qed.

(** The inner loop on a target that is too short: it stops at the first
    sample without a category id. *)
Lemma write_loop_short (d : Bunch) (file : string) :
  length (target d) < length (data d) ->
  forall (n k : nat) (fs0 : filesystem) (acc : list csv_record),
    k + n = length (data d) ->
    k <= length (target d) ->
    fs0 !! file = Some acc ->
    for_each (seq k n) (fun i =>
      x ← list_getitem (data d) i;
      c ← ndarray_getitem (target d) i;
      writerow {| dw_file := file; fieldnames := header |}
               [("data", CellStr x); ("category_id", CellInt c)]) fs0
    = (<[file := acc ++ zip_with (fun text c => [text; str_of_int c])
                          (drop k (data d)) (drop k (target d))]> fs0,
       inl (Exn IndexError
              ("index " ++ str_of_int (Z.of_nat (length (target d)))
               ++ " is out of bounds for axis 0 with size "
               ++ str_of_int (Z.of_nat (length (target d)))))).
Proof.
  intros Hshort. induction n as [|n IH]; intros k fs0 acc Hk Hle Hacc; [lia|].
  destruct (lookup_lt_is_Some_2 (data d) k ltac:(lia)) as [x Hx].
  match goal with |- for_each _ ?b _ = _ => set (body := b) in * end.
  destruct (decide (k = length (target d))) as [->|Hne].
  - assert (Hnone : target d !! length (target d) = None)
      by (apply lookup_ge_None; lia).
    rewrite (drop_ge (target d)) by lia.
    rewrite zip_with_nil_r, app_nil_r, insert_id by exact Hacc.
    apply for_each_cons_err. unfold body.
    unfold mbind, io_mbind, io_bind, list_getitem, ndarray_getitem.
    rewrite Hx, Hnone. reflexivity.
  - destruct (lookup_lt_is_Some_2 (target d) k ltac:(lia)) as [c Hc].
    rewrite (drop_S _ _ _ Hx), (drop_S _ _ _ Hc). cbn [seq zip_with].
    rewrite (for_each_cons_ok k (seq (S k) n) body fs0 _
               (export_row d file k x c fs0 acc Hx Hc Hacc)).
    rewrite (IH (S k) _ (acc ++ [[x; str_of_int c]])).
    + rewrite insert_insert_eq, <- app_assoc. reflexivity.
    + lia.
    + lia.
    + apply lookup_insert_eq.
Qed.

(** The run of the cell on a target that is too short. *)
Lemma export_cell_short :
  length (target train_dataset) < length (data train_dataset) ->
  export_cell train_dataset test_dataset fs
  = (<["train_dataset.csv" := header :: expected_rows train_dataset]> fs,
     inl (Exn IndexError
            ("index " ++ str_of_int (Z.of_nat (length (target train_dataset)))
             ++ " is out of bounds for axis 0 with size "
             ++ str_of_int (Z.of_nat (length (target train_dataset)))))).
Proof.
  intros Hshort. unfold export_cell.
  match goal with |- context [for_each _ ?b fs] => set (body := b) in * end.
  apply for_each_cons_err. unfold body.
  unfold mbind at 1 2. unfold io_mbind, io_bind, open_w, writeheader, write_record.
  cbn -[alter for_each seq].
  rewrite (alter_known _ _ _ [] (lookup_insert_eq _ _ _)).
  rewrite insert_insert_eq.
  rewrite (write_loop_short train_dataset "train_dataset.csv" Hshort _ 0 _ [header]);
    [| reflexivity | lia | apply lookup_insert_eq].
  rewrite insert_insert_eq. reflexivity.
Qed.

(** X13. Whether it ends normally or raises, the cell touches no file other
    than its two: every other file of the directory is as it was. When
    every text has a category id, what the two files hold afterwards does
    not depend on what the directory held before, and running the cell a
    second time changes nothing. *)
Theorem export_cell_replaces_only_its_files :
  let after := fst (export_cell train_dataset test_dataset fs) in
  (forall file,
     file <> "train_dataset.csv" -> file <> "test_dataset.csv" ->
     after !! file = fs !! file) /\
  (length (data train_dataset) <= length (target train_dataset) ->
   (forall other : filesystem,
      fst (export_cell train_dataset test_dataset other) !! "train_dataset.csv"
      = after !! "train_dataset.csv" /\
      fst (export_cell train_dataset test_dataset other) !! "test_dataset.csv"
      = after !! "test_dataset.csv") /\
   fst (export_cell train_dataset test_dataset after) = after).
Proof.
  cbv zeta. split.
  { intros file H1 H2.
    destruct (le_lt_dec (length (data train_dataset)) (length (target train_dataset)))
      as [Hlen|Hshort].
    - rewrite (export_cell_files train_dataset test_dataset _ Hlen). cbn [fst].
      rewrite !lookup_insert_ne by congruence. reflexivity.
    - rewrite (export_cell_short Hshort). cbn [fst].
      rewrite lookup_insert_ne by congruence. reflexivity. }
  intros Hlen.
  rewrite !(export_cell_files train_dataset test_dataset _ Hlen). cbn [fst].
  split.
  - intros other. rewrite (export_cell_files train_dataset test_dataset other Hlen).
    cbn [fst]. rewrite !lookup_insert_eq.
    rewrite !(lookup_insert_ne _ "test_dataset.csv" "train_dataset.csv") by discriminate.
    rewrite !lookup_insert_eq. split; reflexivity.
  - apply map_eq. intros file.
    destruct (decide ("test_dataset.csv" = file)) as [<-|n1].
    { rewrite !lookup_insert_eq. reflexivity. }
    destruct (decide ("train_dataset.csv" = file)) as [<-|n2].
    { repeat (rewrite lookup_insert_ne by discriminate; rewrite lookup_insert_eq).
      reflexivity. }
    repeat (rewrite lookup_insert_ne by assumption). reflexivity.
Qed.


(** X14. When a text has no category id (the targets are fewer than the
    texts), the cell raises numpy's [IndexError] at the first such sample:
    [train_dataset.csv] is left with the header and the rows of the samples
    before it, and [test_dataset.csv] is not opened at all. *)
Theorem export_cell_stops_at_missing_target :
  length (target train_dataset) < length (data train_dataset) ->
  let run := export_cell train_dataset test_dataset fs in
  snd run
  = inl (Exn IndexError
           ("index " ++ str_of_int (Z.of_nat (length (target train_dataset)))
            ++ " is out of bounds for axis 0 with size "
            ++ str_of_int (Z.of_nat (length (target train_dataset))))) /\
  fst run !! "train_dataset.csv"
  = Some (["data"; "category_id"] :: expected_rows train_dataset) /\
  length (expected_rows train_dataset) = length (target train_dataset) /\
  fst run !! "test_dataset.csv" = fs !! "test_dataset.csv".
Proof.
  intros Hshort. cbv zeta. rewrite (export_cell_short Hshort). cbn [fst snd].
  split; [reflexivity|]. split; [apply lookup_insert_eq|].
  split; [unfold expected_rows; rewrite length_zip_with; lia|].
  apply lookup_insert_ne. discriminate.
Qed.

End ExportedFiles.

Lemma export_cell_writes_one_row_per_training_sample_witness :
  snd (DatasetExport.export_cell two_samples one_sample ∅) = inr tt /\
  length (DatasetExport.data_rows
            (fst (DatasetExport.export_cell two_samples one_sample ∅))
            "train_dataset.csv") = 2.
Proof.
  destruct (export_cell_writes_one_row_per_training_sample two_samples one_sample ∅
              ltac:(cbn; lia)) as (H1 & _ & H3 & _).
  split; [exact H1 | exact H3].
Defined.

Lemma export_cell_replaces_only_its_files_witness :
  fst (DatasetExport.export_cell two_samples one_sample
         (fst (DatasetExport.export_cell two_samples one_sample ∅)))
  = fst (DatasetExport.export_cell two_samples one_sample ∅).
Proof.
  exact (proj2 (proj2 (export_cell_replaces_only_its_files two_samples one_sample ∅)
                  ltac:(cbn; lia))).
Defined.

Lemma export_cell_stops_at_missing_target_witness :
  snd (DatasetExport.export_cell short_target one_sample ∅)
  = inl (Exn IndexError "index 1 is out of bounds for axis 0 with size 1").
Proof.
  exact (proj1 (export_cell_stops_at_missing_target short_target one_sample ∅
                  ltac:(cbn; lia))).
Defined.

(** ** train.py: the items of a [CustomDataset] *)

Section Items.

Variable refuses : pyobj -> option exn.
Variable dataset : CustomDataset.
Variable idx : nat.

Lemma encodings_at_returns (enc : encodings) :
  (exists item, Train.encodings_at refuses enc idx = inr item)
  <-> Forall (fun column => idx < length (snd column)) enc /\
      Forall (fun column => forall v, snd column !! idx = Some v -> refuses v = None) enc.
Proof.
  induction enc as [|[key val] rest IH]; cbn [Train.encodings_at].
  - split; [split; constructor | eauto].
  - split.
    + intros [item H]. destruct (val !! idx) as [v|] eqn:Hv; [|discriminate].
      destruct (Train.torch_tensor refuses v) as [e|t] eqn:Ht; [discriminate|].
      apply torch_tensor_built in Ht as [Hr _].
      destruct (Train.encodings_at refuses rest idx) as [e|item'] eqn:He; [discriminate|].
      destruct (proj1 IH ltac:(eauto)) as [H1 H2].
      split; constructor; try assumption.
      * exact (lookup_lt_Some _ _ _ Hv).
      * cbn [snd]. intros w Hw. congruence.
    + intros [H1 H2]. apply Forall_cons in H1 as [Hv Hrest]. cbn [snd] in Hv.
      apply Forall_cons in H2 as [Ha Harest]. cbn [snd] in Ha.
      destruct (lookup_lt_is_Some_2 val idx Hv) as [v Hlook]. rewrite Hlook.
      unfold Train.torch_tensor. rewrite (Ha v Hlook).
      destruct (proj2 IH (conj Hrest Harest)) as [item ->]. eauto.
Qed.

(** X15. [__getitem__] returns an item exactly for an index that is below
    the number of labels and below the length of every column of the
    encodings, and for which [torch.tensor] converts the label of the
    sample and its value in every column; in every other case it raises. *)
Theorem CustomDataset_getitem_returns_iff_in_bounds :
  (exists item, Train.CustomDataset_getitem refuses dataset idx = inr item)
  <-> idx < Train.CustomDataset_len dataset /\
      Forall (fun column => idx < length (snd column)) (ds_encodings dataset) /\
      (forall label, ds_labels dataset !! idx = Some label -> refuses label = None) /\
      Forall (fun column => forall v, snd column !! idx = Some v -> refuses v = None)
             (ds_encodings dataset).
Proof.
  unfold Train.CustomDataset_getitem, Train.CustomDataset_len. split.
  - intros [item H].
    destruct (Train.encodings_at refuses (ds_encodings dataset) idx) as [e|enc] eqn:He;
      [discriminate|].
    destruct (proj1 (encodings_at_returns _) ltac:(eauto)) as [H1 H2].
    destruct (ds_labels dataset !! idx) as [l|] eqn:Hl; [|discriminate].
    destruct (Train.torch_tensor refuses l) as [e|t] eqn:Ht; [discriminate|].
    apply torch_tensor_built in Ht as [Hr _].
    split; [exact (lookup_lt_Some _ _ _ Hl)|]. split; [exact H1|].
    split; [intros label [= <-]; exact Hr | exact H2].
  - intros (Hl & H1 & Hlab & H2).
    destruct (proj2 (encodings_at_returns _) (conj H1 H2)) as [enc ->].
    destruct (lookup_lt_is_Some_2 (ds_labels dataset) idx Hl) as [l Hlook].
    rewrite Hlook. unfold Train.torch_tensor. rewrite (Hlab l Hlook). eauto.
Qed.

(** A label that [torch.tensor] refuses ends [__getitem__] with the
    exception of the library, after the encodings were converted. *)
Example getitem_refuses_text :
  Train.CustomDataset_getitem text_refused
    {| ds_encodings := [("input_ids", [PyList [PyInt 101]])];
       ds_labels := [PyStr "sport"] |} 0
  = inl (Exn TypeError "new(): invalid data type 'str'").
Proof. reflexivity. Qed.

(** X16. The item that [__getitem__] returns for sample [idx] holds, under
    each key of the encodings other than "label", the value of that sample
    in the column of the key, and under "label" the label of the sample,
    also when the encodings have a column named "label" of their own. *)
Theorem CustomDataset_getitem_holds_the_sample (item : list (string * pyobj)) :
  Train.CustomDataset_getitem refuses dataset idx = inr item ->
  dict_get item "label" = ds_labels dataset !! idx /\
  (forall key,
     key <> "label" ->
     dict_get item key
     = dict_get (ds_encodings dataset) key ≫= fun column => column !! idx).
Proof.
  intros H. destruct (getitem_holds refuses idx dataset item H) as [Hlabel Hkeys].
  split; [exact Hlabel | exact Hkeys].
Qed.

End Items.

Lemma CustomDataset_getitem_holds_the_sample_witness :
  dict_get
    [("input_ids", PyList [PyInt 101; PyInt 9]); ("attention_mask", PyList [PyInt 1; PyInt 1]);
     ("label", PyInt 0)]
    "label"
  = ds_labels sample_dataset !! 1.
Proof.
  exact (proj1 (CustomDataset_getitem_holds_the_sample text_refused sample_dataset 1 _
                  eq_refl)).
Defined.

(** ** The cell that queries the endpoint *)

Section QueryCell.
Import DatasetExport EndpointTest.

Variable test_dataset : Bunch.
Variable predict : predictor.

Lemma randint_range (a b state : nat) :
  a <= b -> a <= randint a b state <= b.
Proof.
  intros H. unfold randint.
  pose proof (Nat.mod_upper_bound state (b - a + 1) ltac:(lia)). lia.
Qed.

(** Every value of the range is one that [randint] can return. *)
Lemma randint_reaches (a b n : nat) :
  a <= n <= b -> randint a b (n - a) = n.
Proof.
  intros H. unfold randint. rewrite Nat.mod_small by lia. lia.
Qed.

Lemma query_once_completes (state : nat) (events : list event) :
  query_once test_dataset predict state = (events, None) ->
  exists text first rest label actual,
    data test_dataset !! randint 0 (length (data test_dataset)) state = Some text /\
    predict [text] = inr (first :: rest) /\
    dict_get first "label" = Some label /\
    target test_dataset !! randint 0 (length (data test_dataset)) state = Some actual /\
    events = [Request [text];
              Printed (randint 0 (length (data test_dataset)) state) label actual].
Proof.
  unfold query_once.
  destruct (data test_dataset !! _) as [text|] eqn:Hx; [|discriminate].
  destruct (predict [text]) as [e|[|first rest]] eqn:Hp; try discriminate.
  destruct (dict_get first "label") as [label|] eqn:Hl; [|discriminate].
  destruct (target test_dataset !! _) as [actual|] eqn:Ht; [|discriminate].
  intros [= <-]. exists text, first, rest, label, actual. auto.
Qed.

(** A loop that completes has, for each of its turns in order, sent the
    text that was drawn and printed one line about it. *)
Lemma query_loop_completes :
  forall (states : list nat) (events : list event),
    query_loop test_dataset predict states = (events, None) ->
    length events = 2 * length states /\
    forall i state,
      states !! i = Some state ->
      let sample_id := randint 0 (length (data test_dataset)) state in
      exists text first rest label actual,
        data test_dataset !! sample_id = Some text /\
        predict [text] = inr (first :: rest) /\
        dict_get first "label" = Some label /\
        target test_dataset !! sample_id = Some actual /\
        events !! (2 * i) = Some (Request [text]) /\
        events !! (2 * i + 1) = Some (Printed sample_id label actual).
Proof.
  induction states as [|state0 rest0 IH]; intros events H; cbn [query_loop] in H.
  - injection H as <-. split; [reflexivity|]. intros i state Hi. discriminate Hi.
  - destruct (query_once test_dataset predict state0) as [ev [e|]] eqn:Hq; [discriminate|].
    destruct (query_loop test_dataset predict rest0) as [more r] eqn:Hl.
    injection H as <- ->.
    destruct (query_once_completes _ _ Hq)
      as (text & first & rest & label & actual & Hx & Hp & Hlab & Ht & ->).
    destruct (IH more eq_refl) as (Hlen & Hev).
    split; [cbn [app length]; lia|].
    intros [|i] state Hi; cbv zeta.
    + injection Hi as <-. exists text, first, rest, label, actual.
      repeat split; assumption || reflexivity.
    + cbn [lookup list_lookup] in Hi.
      destruct (Hev i state Hi) as (t & f & r' & l & a & H1 & H2 & H3 & H4 & H5 & H6).
      exists t, f, r', l, a. repeat split; try assumption.
      * replace (2 * S i) with (S (S (2 * i))) by lia. exact H5.
      * replace (2 * S i + 1) with (S (S (2 * i + 1))) by lia. exact H6.
Qed.

(** X17. The cell gets through its ten turns only if none of the ten draws
    of [random.randint(0, len(data))] is [len(data)] itself. It has then
    sent ten requests and printed ten lines, by turns: in turn [i] the
    request carries the one text of the test set that was drawn, and the
    line gives the index drawn, the label that the endpoint's first
    prediction holds and the category id of the sample. *)
Theorem query_cell_completes_only_below_the_bound
    (generator : nat -> nat) (events : list event) :
  query_cell test_dataset predict generator = (events, None) ->
  (forall i, i < 10 ->
     randint 0 (length (data test_dataset)) (generator i)
     < length (data test_dataset)) /\
  length events = 20 /\
  (forall i, i < 10 ->
     let sample_id := randint 0 (length (data test_dataset)) (generator i) in
     exists text first rest label actual,
       data test_dataset !! sample_id = Some text /\
       predict [text] = inr (first :: rest) /\
       dict_get first "label" = Some label /\
       target test_dataset !! sample_id = Some actual /\
       events !! (2 * i) = Some (Request [text]) /\
       events !! (2 * i + 1) = Some (Printed sample_id label actual)).
Proof.
  unfold query_cell. intros H.
  destruct (query_loop_completes _ _ H) as (Hlen & Hev).
  assert (Hi : forall i, i < 10 ->
            map generator (seq 0 10) !! i = Some (generator i)).
  { intros i Hlt. rewrite list_lookup_fmap, lookup_seq_lt by exact Hlt. reflexivity. }
  split; [|split; [rewrite Hlen, length_map, length_seq; reflexivity|]].
  - intros i Hlt.
    destruct (Hev i (generator i) (Hi i Hlt)) as (t & _ & _ & _ & _ & Hx & _).
    exact (lookup_lt_Some _ _ _ Hx).
  - intros i Hlt. exact (Hev i (generator i) (Hi i Hlt)).
Qed.

(** X18. The upper bound of the draw is one past the last sample. When the
    first draw returns it, which [randint] may, the cell raises
    [IndexError] before it has sent any request; on an empty test set
    every draw does. *)
Theorem query_cell_overruns_at_the_bound (generator : nat -> nat) :
  (randint 0 (length (data test_dataset)) (generator 0) = length (data test_dataset) ->
   query_cell test_dataset predict generator
   = ([], Some (Exn IndexError "list index out of range"))) /\
  (data test_dataset = [] ->
   query_cell test_dataset predict generator
   = ([], Some (Exn IndexError "list index out of range"))).
Proof.
  assert (Hb : randint 0 (length (data test_dataset)) (generator 0)
               = length (data test_dataset) ->
               query_cell test_dataset predict generator
               = ([], Some (Exn IndexError "list index out of range"))).
  { intros H. unfold query_cell. cbn [seq map query_loop]. unfold query_once.
    rewrite H. rewrite (proj2 (lookup_ge_None (data test_dataset) _)) by lia.
    reflexivity. }
  split; [exact Hb|].
  intros He. apply Hb. rewrite He. unfold randint. cbn [length].
  rewrite Nat.mod_1_r. reflexivity.
Qed.

End QueryCell.

Lemma query_cell_completes_only_below_the_bound_witness :
  length (fst (EndpointTest.query_cell two_samples sample_predictor (fun i => i * 3))) = 20.
Proof.
  refine (proj1 (proj2 (query_cell_completes_only_below_the_bound
                          two_samples sample_predictor (fun i => i * 3) _ _))).
  vm_refl.
Defined.

Lemma query_cell_overruns_at_the_bound_witness :
  EndpointTest.query_cell two_samples sample_predictor (fun _ => 2)
  = ([], Some (Exn IndexError "list index out of range")) /\
  EndpointTest.query_cell {| DatasetExport.data := []; DatasetExport.target := [] |}
    sample_predictor (fun i => i)
  = ([], Some (Exn IndexError "list index out of range")).
Proof.
  split.
  - exact (proj1 (query_cell_overruns_at_the_bound two_samples sample_predictor
                    (fun _ => 2)) eq_refl).
  - exact (proj2 (query_cell_overruns_at_the_bound
                    {| DatasetExport.data := []; DatasetExport.target := [] |}
                    sample_predictor (fun i => i)) eq_refl).
Defined.

(** ** The serving notebook: the picture that is resized *)

Section Resize.
Import ServingNotebook.

Variable lib : graphics.
Variable dir : gmap string image.

(** X19. Right after the download cell, in a directory that has no file
    named after the picture's address, [resize_image(TEST_IMAGE)] does not
    read the downloaded file: it hands [cv2.resize] the [None] that
    [cv2.imread] returns for the missing [152004091_5bfbc69bb3.jpg], and
    when [cv2.resize] refuses it the call raises and leaves the directory
    as it was. *)
Theorem resize_image_misses_the_download (picture : image) (e : exn) :
  dir !! "152004091_5bfbc69bb3.jpg" = None ->
  cv_resize lib None (224, 224)%Z = inl e ->
  resize_image lib TEST_IMAGE (download picture dir)
  = (download picture dir,
     ([imread "152004091_5bfbc69bb3.jpg"; resize None (224, 224)%Z], inl e)).
Proof.
  intros Hmiss Hres. unfold resize_image, download.
  rewrite lookup_insert_ne by discriminate. rewrite Hmiss, Hres. reflexivity.
Qed.

(** X20. Whatever file name it is given, [resize_image] returns only after
    it has resized the picture stored as [152004091_5bfbc69bb3.jpg]; the
    name it returns is always [resized_sample_image.jpg], and when the
    write succeeded that file holds the resized picture. *)
Theorem resize_image_resizes_a_fixed_file (filename name : string)
    (after : gmap string image) (calls : list graphics_call) :
  resize_image lib filename dir = (after, (calls, inr name)) ->
  name = "resized_sample_image.jpg" /\
  exists resized,
    cv_resize lib (dir !! "152004091_5bfbc69bb3.jpg") (224, 224)%Z = inr resized /\
    (cv_imwrite lib name resized = inr true -> after !! name = Some resized) /\
    forall other, other <> name -> after !! other = dir !! other.
Proof.
  unfold resize_image. cbv zeta.
  change ("resized_" ++ TEST_IMAGE)%string with "resized_sample_image.jpg".
  destruct (cv_resize lib _ _) as [e|resized] eqn:Hr; [discriminate|].
  destruct (cv_imwrite lib _ resized) as [e|written] eqn:Hw; [discriminate|].
  destruct (plt_imshow lib _) as [e|]; [discriminate|].
  destruct (plt_show lib) as [e|]; [discriminate|].
  intros [= <- _ <-]. split; [reflexivity|]. exists resized.
  split; [reflexivity|]. split.
  - intros Ht. rewrite Hw in Ht. injection Ht as ->. apply lookup_insert_eq.
  - intros other Hne. destruct written; [|reflexivity].
    apply lookup_insert_ne. congruence.
Qed.

End Resize.

Lemma resize_image_misses_the_download_witness :
  snd (snd (ServingNotebook.resize_image sample_graphics ServingNotebook.TEST_IMAGE
              (ServingNotebook.download bee ∅)))
  = inl (Exn (OtherError "cv2.error") "resize: empty source").
Proof.
  rewrite (resize_image_misses_the_download sample_graphics ∅ bee
             (Exn (OtherError "cv2.error") "resize: empty source")
             (lookup_empty _) eq_refl).
  reflexivity.
Defined.

Lemma resize_image_resizes_a_fixed_file_witness :
  ServingNotebook.resize_image sample_graphics "any.jpg"
    (<["152004091_5bfbc69bb3.jpg" := bee]> ∅)
  = (<["resized_sample_image.jpg" :=
         {| ServingNotebook.shows := "a bee on a flower";
            ServingNotebook.width := 224; ServingNotebook.height := 224 |}]>
       (<["152004091_5bfbc69bb3.jpg" := bee]> ∅),
     ([ServingNotebook.imread "152004091_5bfbc69bb3.jpg";
       ServingNotebook.resize (Some bee) (224, 224)%Z;
       ServingNotebook.imwrite "resized_sample_image.jpg"
         {| ServingNotebook.shows := "a bee on a flower";
            ServingNotebook.width := 224; ServingNotebook.height := 224 |};
       ServingNotebook.imread "resized_sample_image.jpg";
       ServingNotebook.imshow
         (Some {| ServingNotebook.shows := "a bee on a flower";
                  ServingNotebook.width := 224; ServingNotebook.height := 224 |});
       ServingNotebook.show],
      inr "resized_sample_image.jpg")) /\
  "resized_sample_image.jpg" = "resized_sample_image.jpg".
Proof.
  assert (H : ServingNotebook.resize_image sample_graphics "any.jpg"
                (<["152004091_5bfbc69bb3.jpg" := bee]> ∅)
              = (<["resized_sample_image.jpg" :=
                     {| ServingNotebook.shows := "a bee on a flower";
                        ServingNotebook.width := 224; ServingNotebook.height := 224 |}]>
                   (<["152004091_5bfbc69bb3.jpg" := bee]> ∅),
                 ([ServingNotebook.imread "152004091_5bfbc69bb3.jpg";
                   ServingNotebook.resize (Some bee) (224, 224)%Z;
                   ServingNotebook.imwrite "resized_sample_image.jpg"
                     {| ServingNotebook.shows := "a bee on a flower";
                        ServingNotebook.width := 224; ServingNotebook.height := 224 |};
                   ServingNotebook.imread "resized_sample_image.jpg";
                   ServingNotebook.imshow
                     (Some {| ServingNotebook.shows := "a bee on a flower";
                              ServingNotebook.width := 224;
                              ServingNotebook.height := 224 |});
                   ServingNotebook.show],
                  inr "resized_sample_image.jpg"))) by vm_refl.
  split; [exact H|].
  exact (proj1 (resize_image_resizes_a_fixed_file sample_graphics _ _ _ _ _ H)).
Defined.
